(** * Natal-chart webhook ([main.py]): a shallow embedding and its properties

    The Python module is embedded function by function.  Python [float]s
    are modelled by exact rationals ([Q]): every finite float is a rational,
    and the arithmetic the module itself performs on them is one division by
    30 followed by a truncation.  The division is exact here and rounded in
    Python; after the truncation the two agree as long as the quotient of a
    float cannot be rounded up to the next integer, which holds for every
    float of magnitude below [exact_division_bound] and fails for some floats
    from about 3.4e16 on.  Python [str] is modelled by [string] (the UTF-8
    bytes of the text). *)

From Stdlib Require Import ZArith QArith Qround List String Ascii Bool Lia.
Import ListNotations.
Local Open Scope string_scope.

(** ** Python built-ins used by the module *)

Module Py.

(** [int(x)] on a float: truncation toward zero. *)
Definition int (x : Q) : Z := Z.quot (Qnum x) (Zpos (Qden x)).

(** [a % b] on integers: the result takes the sign of the divisor. *)
Definition mod_ (a b : Z) : Z := Z.modulo a b.

(** *** Strings *)

Definition byte (n : nat) : ascii := ascii_of_nat n.

(** [str.isspace] on the code points below U+0080. *)
Definition ws1 (c : ascii) : bool :=
  let n := nat_of_ascii c in
  ((9 <=? n) && (n <=? 13) || (28 <=? n) && (n <=? 32))%nat.

(** U+0085 and U+00A0, as UTF-8. *)
Definition ws2 (c1 c2 : ascii) : bool :=
  let a := nat_of_ascii c1 in
  let b := nat_of_ascii c2 in
  ((a =? 194) && ((b =? 133) || (b =? 160)))%nat.

(** U+1680, U+2000..U+200A, U+2028, U+2029, U+202F, U+205F and U+3000,
    as UTF-8. *)
Definition ws3 (c1 c2 c3 : ascii) : bool :=
  let a := nat_of_ascii c1 in
  let b := nat_of_ascii c2 in
  let c := nat_of_ascii c3 in
  ((a =? 225) && (b =? 154) && (c =? 128)
   || (a =? 226) && (b =? 128)
      && ((128 <=? c) && (c <=? 138) || (c =? 168) || (c =? 169) || (c =? 175))
   || (a =? 226) && (b =? 129) && (c =? 159)
   || (a =? 227) && (b =? 128) && (c =? 128))%nat.

(** [s.lstrip()]. *)
Fixpoint lstrip (s : string) : string :=
  match s with
  | EmptyString => s
  | String c1 r1 =>
      if ws1 c1 then lstrip r1
      else
        match r1 with
        | EmptyString => s
        | String c2 r2 =>
            if ws2 c1 c2 then lstrip r2
            else
              match r2 with
              | EmptyString => s
              | String c3 r3 => if ws3 c1 c2 c3 then lstrip r3 else s
              end
        end
  end.

Fixpoint rev_onto (s acc : string) : string :=
  match s with
  | EmptyString => acc
  | String c r => rev_onto r (String c acc)
  end.

Definition rev (s : string) : string := rev_onto s EmptyString.

(** The same scan over the reversed bytes: a character's bytes come last
    byte first. *)
Fixpoint lstrip_rev (s : string) : string :=
  match s with
  | EmptyString => s
  | String c1 r1 =>
      if ws1 c1 then lstrip_rev r1
      else
        match r1 with
        | EmptyString => s
        | String c2 r2 =>
            if ws2 c2 c1 then lstrip_rev r2
            else
              match r2 with
              | EmptyString => s
              | String c3 r3 => if ws3 c3 c2 c1 then lstrip_rev r3 else s
              end
        end
  end.

(** [s.rstrip()] and [s.strip()]. *)
Definition rstrip (s : string) : string := rev (lstrip_rev (rev s)).
Definition strip (s : string) : string := rstrip (lstrip s).

(** [s.split(sep)] for a one-character separator: never returns the empty
    list, and keeps empty fields. *)
Fixpoint split (sep : ascii) (s : string) : list string :=
  match s with
  | EmptyString => [EmptyString]
  | String c r =>
      if Ascii.eqb c sep then EmptyString :: split sep r
      else
        match split sep r with
        | [] => [String c EmptyString]
        | h :: t => String c h :: t
        end
  end.

(** [s.lower()]: only the letters A..Z change below U+0080; the bytes of
    longer UTF-8 sequences are left alone (none of the texts compared
    against contains a cased letter). *)
Definition lower_byte (c : ascii) : ascii :=
  let n := nat_of_ascii c in
  if ((65 <=? n) && (n <=? 90))%nat then ascii_of_nat (n + 32) else c.

Fixpoint lower (s : string) : string :=
  match s with
  | EmptyString => EmptyString
  | String c r => String (lower_byte c) (lower r)
  end.

(** [sub in s]. *)
Fixpoint contains (sub s : string) : bool :=
  String.prefix sub s
  || match s with
     | EmptyString => false
     | String _ r => contains sub r
     end.

Definition comma : ascii := byte 44.
Definition space : ascii := byte 32.


(** [seq[i]] on a list or tuple: a negative index counts from the end,
    anything outside [-len, len) raises [IndexError] (here [None]). *)
Definition getitem {A : Type} (l : list A) (i : Z) : option A :=
  let n := Z.of_nat (List.length l) in
  if (0 <=? i)%Z then nth_error l (Z.to_nat i)
  else if (- n <=? i)%Z then nth_error l (Z.to_nat (n + i))
  else None.

End Py.

(** ** [get_zodiac_sign] *)

Definition zodiac_signs : list string :=
  [ "牡羊座"; "牡牛座"; "双子座"; "蟹座"; "獅子座"; "乙女座";
    "天秤座"; "蠍座"; "射手座"; "山羊座"; "水瓶座"; "魚座" ].

Definition sign_index (longitude : Q) : Z :=
  Py.mod_ (Py.int (longitude / 30)) 12.

(** A magnitude below which [int(L / 30)] on floats is [int] of the exact
    quotient: up to there every multiple of 30 is a float, and the float
    next below it is further from it than half the spacing of the floats at
    the quotient times 30. *)
Definition exact_division_bound : Q := 1000000000000000.

(** [None] stands for the [IndexError] of [zodiac_signs[sign_index]]. *)
Definition get_zodiac_sign (longitude : Q) : option string :=
  Py.getitem zodiac_signs (sign_index longitude).


(** ** Exceptions *)

(** The classes the module can meet; all derive from [Exception].
    [JSONDecodeError] derives from [ValueError]. *)
Inductive exn_class : Type :=
| ValueError | JSONDecodeError | IndexError | KeyError | OverflowError
| RequestException | SweError | LineBotApiError | OtherException.

(** An exception object: its class and [str(e)]. *)
Record exn : Type := Exn { class_of : exn_class; str : string }.

Definition is_ValueError (e : exn) : bool :=
  match class_of e with
  | ValueError | JSONDecodeError => true
  | _ => false
  end.

Definition is_RequestException (e : exn) : bool :=
  match class_of e with
  | RequestException => true
  | _ => false
  end.

Definition is_JSONDecodeError (e : exn) : bool :=
  match class_of e with
  | JSONDecodeError => true
  | _ => false
  end.

Inductive result (A : Type) : Type :=
| Ok (a : A)
| Raise (e : exn).
Arguments Ok {A} a.
Arguments Raise {A} e.

(** ** Values and effects *)

(** A naive [datetime]. *)
Record datetime : Type := Datetime {
  year : Z; month : Z; day : Z; hour : Z; minute : Z; second : Z }.

(** An aware [datetime]: the fields and the UTC offset in seconds. *)
Definition aware_datetime : Type := (datetime * Z)%type.

(** The pieces of an f-string: literal text and the interpolated values.
    How a float is printed is left to the reader of the record. *)
Inductive fpart : Type :=
| Lit (s : string)             (* text of the literal *)
| Str (s : string)             (* {s} for a str, also str(e) *)
| Num (x : option Q)           (* {x} for a float or None *)
| Fixed2 (x : Q).              (* {x:.2f} *)

Definition fstring : Type := list fpart.

Inductive level : Type := INFO | WARNING | ERROR.

(** What the module does to the outside, in order. *)
Inductive effect : Type :=
| Log (lv : level) (msg : fstring)
| LineReply (reply_token text : string)
| LinePush (to text : string)
| HttpGet (url : string)
| SweUtcToJd (utc : datetime) (flag : Z)
| SweCalcUt (jd : Q) (p_id flag : Z)
| SweHouses (jd lat lon : Q) (hsys : string)
| GenerateContent (model_name : string) (prompt : list fstring) (timeout : Z).

(** The state outside a call: the ephemeris path set once at import
    ([swe.set_ephe_path]) and the effects performed so far. *)
Record world : Type := World { ephe_path : string; trace : list effect }.

(** ** The monad of the embedding: state, and exceptions that keep it *)

Definition M (A : Type) : Type := world -> result A * world.

Definition ret {A : Type} (a : A) : M A := fun w => (Ok a, w).

Definition bind {A B : Type} (m : M A) (f : A -> M B) : M B :=
  fun w =>
    match m w with
    | (Ok a, w') => f a w'
    | (Raise e, w') => (Raise e, w')
    end.

Definition raise {A : Type} (e : exn) : M A := fun w => (Raise e, w).

(** [try: body except Exception as e: handler e]. *)
Definition try_except {A : Type} (body : M A) (handler : exn -> M A) : M A :=
  fun w =>
    match body w with
    | (Ok a, w') => (Ok a, w')
    | (Raise e, w') => handler e w'
    end.

Definition emit (ef : effect) : M unit :=
  fun w => (Ok tt, World (ephe_path w) (trace w ++ [ef])).

(** The world after some more effects. *)
Definition after (w : world) (new : list effect) : world :=
  World (ephe_path w) (trace w ++ new).

Definition get_trace : M (list effect) := fun w => (Ok (trace w), w).
Definition get_ephe_path : M string := fun w => (Ok (ephe_path w), w).

Definition of_result {A : Type} (r : result A) : M A :=
  match r with
  | Ok a => ret a
  | Raise e => raise e
  end.

Declare Scope py_scope.
Delimit Scope py_scope with py.
Notation "x <- m ;; k" := (bind m (fun x => k))
  (at level 61, m at next level, right associativity) : py_scope.
Notation "' pat <- m ;; k" := (bind m (fun x => match x with pat => k end))
  (at level 61, pat pattern, m at next level, right associativity) : py_scope.
Notation "m ;; k" := (bind m (fun _ => k))
  (at level 61, right associativity) : py_scope.
Local Open Scope py_scope.

Definition log (lv : level) (msg : fstring) : M unit := emit (Log lv msg).

(** [l[i]] in the monad; [what] is "list" or "tuple". *)
Definition getitem {A : Type} (what : string) (l : list A) (i : Z) : M A :=
  match Py.getitem l i with
  | Some a => ret a
  | None => raise (Exn IndexError (what ++ " index out of range"))
  end.

(** [get_zodiac_sign] as called from monadic code. *)
Definition get_zodiac_sign_m (longitude : Q) : M string :=
  match get_zodiac_sign longitude with
  | Some sign => ret sign
  | None => raise (Exn IndexError "list index out of range")
  end.

(** ** The libraries the module imports, as interfaces *)

(** [datetime] and [pytz].  [strptime] raises only [ValueError] on strings
    ([inl] carries its message). *)
Class DateTimeLib : Type := {
  strptime : string -> string -> string + datetime;
  localize : string -> datetime -> result aware_datetime;
  astimezone_utc : aware_datetime -> result datetime }.

(** [swisseph]: its constants and the three routines called.  [calc_ut]
    reads the ephemeris files under the path set at import. *)
Class SwissEph : Type := {
  SUN : Z; MOON : Z; MERCURY : Z; VENUS : Z; MARS : Z; JUPITER : Z;
  SATURN : Z; URANUS : Z; NEPTUNE : Z; PLUTO : Z;
  FLG_SWIEPH : Z;
  utc_to_jd : datetime -> Z -> result (list Q);
  calc_ut : string -> Q -> Z -> Z -> result (list Q * Z);
  houses : Q -> Q -> Q -> string -> result (list Q * list Q * Z) }.

(** The body of a Geocoding API answer, as far as the module reads it.  The
    keys read are taken to be there: a decoded body that lacks one of them
    (where the subscripts of the module raise [KeyError]) is not a value of
    this type. *)
Record location : Type := Location { json_lat : option Q; json_lng : option Q }.
Record geocode_json : Type := GeocodeJson {
  status : string;
  results : list location;
  error_message : option string }.

(** [requests.get], [raise_for_status] and [response.json()] together:
    an exception or the decoded body.  The answer may depend on what
    happened before. *)
Class Requests : Type := {
  requests_get : list effect -> string -> result geocode_json }.

(** [line_bot_api]: [None] when the call returns. *)
Class LineBotApi : Type := {
  line_reply : list effect -> string -> string -> option exn;
  line_push : list effect -> string -> string -> option exn }.

(** [model.generate_content]: an exception, or the text of the first part of
    the first candidate when there is one. *)
Class GenAI : Type := {
  generate_content :
    list effect -> string -> list fstring -> Z -> result (option string) }.

(** Keys read at import.  The module stops at import when
    [GOOGLE_GEOCODING_API_KEY] is empty, and assigns a non-empty literal to
    [GEMINI_API_KEY]; both are tested again where they are used. *)
Class Config : Type := {
  GOOGLE_GEOCODING_API_KEY : string;
  GEMINI_API_KEY : string }.

(** The event the LINE handler receives. *)
Record MessageEvent : Type := Event {
  text : string; user_id : string; reply_token : string }.

(** A natal chart: a [dict] from names to tuples of floats, in insertion
    order. *)
Definition chart : Type := list (string * list Q).

(** The keys of a complete chart, in insertion order. *)
Definition chart_names : list string :=
  ["Sun"; "Moon"; "Mercury"; "Venus"; "Mars"; "Jupiter"; "Saturn";
   "Uranus"; "Neptune"; "Pluto"; "ASC"; "MC"].

(** [d[k] = v]: replaces the value of a key in place, appends a new key. *)
Fixpoint dict_set {V : Type} (d : list (string * V)) (k : string) (v : V)
  : list (string * V) :=
  match d with
  | [] => [(k, v)]
  | (k', v') :: r =>
      if String.eqb k' k then (k', v) :: r else (k', v') :: dict_set r k v
  end.

(** [d.get(k)]. *)
Fixpoint dict_get {V : Type} (d : list (string * V)) (k : string) : option V :=
  match d with
  | [] => None
  | (k', v) :: r => if String.eqb k' k then Some v else dict_get r k
  end.

(** ** The texts sent to the user *)

Definition nl : string := String (Py.byte 10) EmptyString.

Definition greeting_text : string :=
  "こんにちは！無料でホロスコープを診断します。誕生年月日、出生時間（例: 1990-01-01 12:30）、そして出生地の都道府県と市区町村を教えてください。(例: 東京都, 港区)".
Definition loading_text : string :=
  "ご依頼ありがとうございます！ホロスコープの解釈を生成中です。少々お待ちください...".
Definition geocode_error_text : string :=
  "出生地の座標を取得できませんでした。都道府県と市区町村が正しいかご確認ください。".
Definition chart_error_text : string :=
  "ホロスコープの計算中にエラーが発生しました。入力情報をご確認ください。".
Definition shape_error_text : string :=
  "入力形式が正しくありません。例: 1990-01-01 12:30, 東京都, 港区".
Definition syntax_error_text : string :=
  "日付または時間の形式が正しくありません。例: 1990-01-01 12:30, 東京都, 港区".
Definition unexpected_error_text : string :=
  "ホロスコープの解釈中に予期せぬエラーが発生しました。時間を置いて再度お試しください。".
Definition result_prefix : string := "ホロスコープ診断結果です：" ++ nl.

Definition no_key_text : string :=
  "ホロスコープの解釈中にエラーが発生しました。APIキーが設定されていません。".
Definition no_answer_text : string :=
  "ホロスコープの解釈中にエラーが発生しました。AIからの応答がありませんでした。".
Definition forbidden_text : string :=
  "ホロスコープの解釈中にネットワークエラーが発生しました。権限の問題の可能性があります。時間を置いて再度お試しください。".
Definition quota_text : string :=
  "ホロスコープの解釈中にネットワークエラーが発生しました。APIの利用制限を超過しました。時間を置いて再度お試しください。".
Definition timeout_text : string :=
  "ホロスコープの解釈中にネットワークエラーが発生しました。AIからの応答がタイムアウトしました。時間を置いて再度お試しください。".
Definition network_text : string :=
  "ホロスコープの解釈中にネットワークエラーが発生しました。時間を置いて再度お試しください。".

Definition prompt_intro : string :=
  "あなたは経験豊富な占星術師です。以下の天体位置とハウスカスプ情報に基づいて、"
  ++ "その人の性格や傾向について、詳細かつ洞察に満ちたホロスコープの解釈を生成してください。"
  ++ nl ++ nl.
Definition prompt_heading : string := "**天体位置:**" ++ nl.
Definition prompt_closing : string :=
  nl ++ "解釈は、各天体の位置が示す意味を簡潔にまとめ、全体的な性格傾向を説明してください。".

(** ** The functions of the module *)

Section Main.

Context `{DateTimeLib} `{SwissEph} `{Requests} `{LineBotApi} `{GenAI}
        `{Config}.

(** *** Calls to the libraries *)

Definition strptime_m (date_string format : string) : M datetime :=
  match strptime date_string format with
  | inr dt => ret dt
  | inl msg => raise (Exn ValueError msg)
  end.

Definition swe_utc_to_jd (utc : datetime) (flag : Z) : M (list Q) :=
  emit (SweUtcToJd utc flag) ;;
  of_result (utc_to_jd utc flag).

Definition swe_calc_ut (jd : Q) (p_id flag : Z) : M (list Q * Z) :=
  emit (SweCalcUt jd p_id flag) ;;
  path <- get_ephe_path ;;
  of_result (calc_ut path jd p_id flag).

Definition swe_houses (jd latitude longitude : Q) (hsys : string)
  : M (list Q * list Q * Z) :=
  emit (SweHouses jd latitude longitude hsys) ;;
  of_result (houses jd latitude longitude hsys).

Definition http_get (url : string) : M geocode_json :=
  before <- get_trace ;;
  emit (HttpGet url) ;;
  of_result (requests_get before url).

Definition reply_message (token message : string) : M unit :=
  before <- get_trace ;;
  emit (LineReply token message) ;;
  match line_reply before token message with
  | None => ret tt
  | Some e => raise e
  end.

Definition push_message (to message : string) : M unit :=
  before <- get_trace ;;
  emit (LinePush to message) ;;
  match line_push before to message with
  | None => ret tt
  | Some e => raise e
  end.

Definition model_generate_content
    (model_name : string) (prompt : list fstring) (timeout : Z)
  : M (option string) :=
  before <- get_trace ;;
  emit (GenerateContent model_name prompt timeout) ;;
  of_result (generate_content before model_name prompt timeout).

(** *** [get_coordinates] *)

Definition get_coordinates (city region : string)
  : M (option Q * option Q) :=
  if String.eqb GOOGLE_GEOCODING_API_KEY "" then
    log ERROR [Lit "Google Geocoding API key is missing."] ;;
    ret (None, None)
  else
    let address := city ++ ", " ++ region ++ ", Japan" in
    let geocode_url :=
      "https://maps.googleapis.com/maps/api/geocode/json?address="
      ++ address ++ "&key=" ++ GOOGLE_GEOCODING_API_KEY in
    try_except
      (data <- http_get geocode_url ;;
       if String.eqb (status data) "OK"
          && negb (Nat.eqb (List.length (results data)) 0)
       then
         location <- getitem "list" (results data) 0 ;;
         let lat := json_lat location in
         let lon := json_lng location in
         log INFO [Lit "Geocoding successful. Lat: "; Num lat;
                   Lit ", Lon: "; Num lon] ;;
         ret (lat, lon)
       else
         log ERROR
           [Lit "Geocoding API response status: "; Str (status data);
            Lit ". Error: ";
            Str (match error_message data with
                 | Some m => m
                 | None => "No error message provided."
                 end)] ;;
         ret (None, None))
      (fun e =>
         if is_RequestException e then
           log ERROR [Lit "Error calling Geocoding API: "; Str (str e)] ;;
           ret (None, None)
         else if is_JSONDecodeError e then
           log ERROR
             [Lit "Error decoding Geocoding API response: "; Str (str e)] ;;
           ret (None, None)
         else raise e).

(** *** [calculate_natal_chart] *)

Definition planets : list (string * Z) :=
  [ ("Sun", SUN); ("Moon", MOON); ("Mercury", MERCURY);
    ("Venus", VENUS); ("Mars", MARS); ("Jupiter", JUPITER);
    ("Saturn", SATURN); ("Uranus", URANUS); ("Neptune", NEPTUNE);
    ("Pluto", PLUTO) ].

(** The [for name, p_id in planets.items()] loop. *)
Fixpoint planet_loop (jd_utc : list Q) (items : list (string * Z))
         (natal_positions : chart) : M chart :=
  match items with
  | [] => ret natal_positions
  | (name, p_id) :: rest =>
      jd <- getitem "tuple" jd_utc 0 ;;
      ' (xx, _) <- swe_calc_ut jd p_id FLG_SWIEPH ;;
      x0 <- getitem "tuple" xx 0 ;;
      x1 <- getitem "tuple" xx 1 ;;
      planet_loop jd_utc rest (dict_set natal_positions name [x0; x1])
  end.

(** The body of the [try] block. *)
Definition calculate_natal_chart_try
    (birth_date_str birth_time_str : string) (latitude longitude : Q)
  : M (option chart) :=
  let birth_datetime_str := birth_date_str ++ " " ++ birth_time_str in
  birth_datetime <- strptime_m birth_datetime_str "%Y-%m-%d %H:%M" ;;
  local_dt <- of_result (localize "Asia/Tokyo" birth_datetime) ;;
  utc_dt <- of_result (astimezone_utc local_dt) ;;
  jd_utc <- swe_utc_to_jd utc_dt FLG_SWIEPH ;;
  natal_positions <- planet_loop jd_utc planets [] ;;
  jd <- getitem "tuple" jd_utc 0 ;;
  ' (_, ascmc, _) <- swe_houses jd latitude longitude "P" ;;
  asc <- getitem "tuple" ascmc 0 ;;
  let natal_positions := dict_set natal_positions "ASC" [asc] in
  mc <- getitem "tuple" ascmc 1 ;;
  let natal_positions := dict_set natal_positions "MC" [mc] in
  log INFO [Lit "Horoscope calculation completed."] ;;
  ret (Some natal_positions).

(** [None] is the Python [None] returned by the [except] clause. *)
Definition calculate_natal_chart
    (birth_date_str birth_time_str : string) (latitude longitude : Q)
  : M (option chart) :=
  try_except
    (calculate_natal_chart_try birth_date_str birth_time_str
                               latitude longitude)
    (fun e =>
       log ERROR
         [Lit "Error during natal chart calculation: "; Str (str e)] ;;
       ret None).

(** *** [generate_horoscope_interpretation] *)

Definition prompt_line (name : string) (pos : list Q) : M fstring :=
  p0 <- getitem "tuple" pos 0 ;;
  sign <- get_zodiac_sign_m p0 ;;
  p0' <- getitem "tuple" pos 0 ;;
  ret [Lit "- "; Str name; Lit ": "; Str sign; Lit " ("; Fixed2 p0';
       Lit ("度)" ++ nl)].

(** The [for name, pos in natal_positions.items()] loop; its two branches
    append the same line. *)
Fixpoint prompt_loop (items : chart) (prompt_parts : list fstring)
  : M (list fstring) :=
  match items with
  | [] => ret prompt_parts
  | (name, pos) :: rest =>
      if String.eqb name "ASC" || String.eqb name "MC" then
        line <- prompt_line name pos ;;
        prompt_loop rest (prompt_parts ++ [line])
      else
        line <- prompt_line name pos ;;
        prompt_loop rest (prompt_parts ++ [line])
  end.

Definition generate_horoscope_interpretation (natal_positions : chart)
  : M string :=
  if String.eqb GEMINI_API_KEY "" then
    log ERROR
      [Lit "Gemini API key is not configured. Cannot generate interpretation."] ;;
    ret no_key_text
  else
    try_except
      (prompt_parts <-
         prompt_loop natal_positions
           [[Lit prompt_intro]; [Lit prompt_heading]] ;;
       let prompt_parts := (prompt_parts ++ [[Lit prompt_closing]])%list in
       log INFO (Lit "LLM Prompt: " :: List.concat prompt_parts) ;;
       response <-
         model_generate_content "gemini-2.0-flash" prompt_parts 60 ;;
       match response with
       | Some interpretation_text =>
           log INFO
             [Lit "Gemini API interpretation generated successfully."] ;;
           ret interpretation_text
       | None =>
           log ERROR
             [Lit "LLM API returned no text or unexpected structure."] ;;
           ret no_answer_text
       end)
      (fun e =>
         log ERROR [Lit "Gemini API request failed: "; Str (str e)] ;;
         if Py.contains "403 Client Error" (str e)
            || Py.contains "Forbidden" (str e)
         then ret forbidden_text
         else if Py.contains "Quota exceeded" (str e)
                 || Py.contains "rate limit" (str e)
         then ret quota_text
         else if Py.contains "timeout" (str e) then ret timeout_text
         else ret network_text).

(** *** [handle_message] *)

(** The two [except] clauses: [except ValueError] and
    [except Exception as e]. *)
Definition handle_message_except (event : MessageEvent) (e : exn)
  : M unit :=
  if is_ValueError e then
    reply_message (reply_token event) syntax_error_text ;;
    log WARNING [Lit "Invalid date/time format received."]
  else
    log ERROR [Lit "Error during horoscope processing: "; Str (str e)] ;;
    push_message (user_id event) unexpected_error_text.

Definition handle_message (event : MessageEvent) : M unit :=
  log INFO [Lit "Received message: "; Str (text event)] ;;
  let user_message := Py.strip (text event) in
  let user_id := user_id event in
  if String.eqb (Py.lower user_message) "こんにちは" then
    reply_message (reply_token event) greeting_text ;;
    log INFO [Lit "Sent greeting message."]
  else
    log INFO [Lit "Attempting to parse horoscope input: '";
              Str user_message; Lit "'"] ;;
    try_except
      (let parts := map Py.strip (Py.split Py.comma user_message) in
       if Nat.eqb (List.length parts) 3 then
         first <- getitem "list" parts 0 ;;
         birth_date_str <- getitem "list" (Py.split Py.space first) 0 ;;
         first' <- getitem "list" parts 0 ;;
         birth_time_str <- getitem "list" (Py.split Py.space first') 1 ;;
         region <- getitem "list" parts 1 ;;
         city <- getitem "list" parts 2 ;;
         strptime_m birth_date_str "%Y-%m-%d" ;;
         strptime_m birth_time_str "%H:%M" ;;
         log INFO [Lit "Sent loading message to prevent webhook timeout."] ;;
         reply_message (reply_token event) loading_text ;;
         ' (lat, lon) <- get_coordinates city region ;;
         match lat, lon with
         | Some lat, Some lon =>
             natal_positions <-
               calculate_natal_chart birth_date_str birth_time_str lat lon ;;
             match natal_positions with
             | None =>
                 push_message user_id chart_error_text ;;
                 log ERROR [Lit "Failed to calculate natal chart."]
             | Some natal_positions =>
                 interpretation <-
                   generate_horoscope_interpretation natal_positions ;;
                 push_message user_id (result_prefix ++ interpretation) ;;
                 log INFO [Lit "Pushed final horoscope reply to user ";
                           Str user_id]
             end
         | _, _ =>
             push_message user_id geocode_error_text ;;
             log ERROR [Lit "Failed to get coordinates."]
         end
       else
         reply_message (reply_token event) shape_error_text ;;
         log WARNING [Lit "Invalid input format received."])
      (handle_message_except event).

End Main.

(** *** The keys read when the module is imported *)

(** The four module-level names bound before the clients are built. *)
Record keys : Type := Keys {
  line_channel_secret : string;
  line_channel_access_token : string;
  google_geocoding_api_key : string;
  gemini_api_key : string }.

(** [not v] for the result of [os.getenv]: [None] and the empty string are
    false. *)
Definition falsy (v : option string) : bool :=
  match v with
  | None => true
  | Some s => String.eqb s ""
  end.

Definition value_of (v : option string) : string :=
  match v with
  | Some s => s
  | None => ""
  end.

Definition not_set (name : string) : string :=
  name ++ " environment variable is not set.".

(** The module-level statements from the three [os.getenv] calls to the
    four checks; [gemini_literal] is the literal assigned to
    [GEMINI_API_KEY]. *)
Definition import_keys (getenv : string -> option string)
           (gemini_literal : string) : M keys :=
  let LINE_CHANNEL_SECRET := getenv "LINE_CHANNEL_SECRET" in
  let LINE_CHANNEL_ACCESS_TOKEN := getenv "LINE_CHANNEL_ACCESS_TOKEN" in
  let GOOGLE_GEOCODING_API_KEY := getenv "GOOGLE_GEOCODING_API_KEY" in
  let GEMINI_API_KEY := gemini_literal in
  if falsy LINE_CHANNEL_SECRET then
    log ERROR [Lit (not_set "LINE_CHANNEL_SECRET")] ;;
    raise (Exn ValueError (not_set "LINE_CHANNEL_SECRET"))
  else if falsy LINE_CHANNEL_ACCESS_TOKEN then
    log ERROR [Lit (not_set "LINE_CHANNEL_ACCESS_TOKEN")] ;;
    raise (Exn ValueError (not_set "LINE_CHANNEL_ACCESS_TOKEN"))
  else if falsy GOOGLE_GEOCODING_API_KEY then
    log ERROR [Lit (not_set "GOOGLE_GEOCODING_API_KEY")] ;;
    raise (Exn ValueError (not_set "GOOGLE_GEOCODING_API_KEY"))
  else
    (if String.eqb GEMINI_API_KEY "" then
       log ERROR
         [Lit "GEMINI_API_KEY is not set. Please check the hardcoded value or environment variable."]
     else ret tt) ;;
    ret (Keys (value_of LINE_CHANNEL_SECRET)
              (value_of LINE_CHANNEL_ACCESS_TOKEN)
              (value_of GOOGLE_GEOCODING_API_KEY)
              GEMINI_API_KEY).

(** The keys as the functions of the module see them. *)
Definition config_of (k : keys) : Config := {|
  GOOGLE_GEOCODING_API_KEY := google_geocoding_api_key k;
  GEMINI_API_KEY := gemini_api_key k |}.

(** The variables that must be set, in the order of the checks. *)
Definition required_variables : list string :=
  ["LINE_CHANNEL_SECRET"; "LINE_CHANNEL_ACCESS_TOKEN";
   "GOOGLE_GEOCODING_API_KEY"].

(** ** Predicates used to state the properties *)

Section Predicates.

Context `{DateTimeLib} `{SwissEph}.

(** The steps from the two input strings to the tuple [jd_utc] all
    return. *)
Definition julian_day_steps (birth_date_str birth_time_str : string)
           (jd_utc : list Q) : Prop :=
  exists birth_datetime local_dt utc_dt,
    strptime (birth_date_str ++ " " ++ birth_time_str) "%Y-%m-%d %H:%M"
    = inr birth_datetime /\
    localize "Asia/Tokyo" birth_datetime = Ok local_dt /\
    astimezone_utc local_dt = Ok utc_dt /\
    utc_to_jd utc_dt FLG_SWIEPH = Ok jd_utc.

(** A step of [calculate_natal_chart] raises: a library call, or the
    indexing of a tuple that a library returned too short. *)
Inductive step_fails (path birth_date_str birth_time_str : string)
          (latitude longitude : Q) : Prop :=
| strptime_fails msg :
    strptime (birth_date_str ++ " " ++ birth_time_str) "%Y-%m-%d %H:%M"
    = inl msg ->
    step_fails path birth_date_str birth_time_str latitude longitude
| localize_fails birth_datetime e :
    strptime (birth_date_str ++ " " ++ birth_time_str) "%Y-%m-%d %H:%M"
    = inr birth_datetime ->
    localize "Asia/Tokyo" birth_datetime = Raise e ->
    step_fails path birth_date_str birth_time_str latitude longitude
| astimezone_fails birth_datetime local_dt e :
    strptime (birth_date_str ++ " " ++ birth_time_str) "%Y-%m-%d %H:%M"
    = inr birth_datetime ->
    localize "Asia/Tokyo" birth_datetime = Ok local_dt ->
    astimezone_utc local_dt = Raise e ->
    step_fails path birth_date_str birth_time_str latitude longitude
| utc_to_jd_fails birth_datetime local_dt utc_dt e :
    strptime (birth_date_str ++ " " ++ birth_time_str) "%Y-%m-%d %H:%M"
    = inr birth_datetime ->
    localize "Asia/Tokyo" birth_datetime = Ok local_dt ->
    astimezone_utc local_dt = Ok utc_dt ->
    utc_to_jd utc_dt FLG_SWIEPH = Raise e ->
    step_fails path birth_date_str birth_time_str latitude longitude
| calc_ut_fails jd_utc jd name p_id e :
    julian_day_steps birth_date_str birth_time_str jd_utc ->
    Py.getitem jd_utc 0 = Some jd ->
    In (name, p_id) planets ->
    calc_ut path jd p_id FLG_SWIEPH = Raise e ->
    step_fails path birth_date_str birth_time_str latitude longitude
| houses_fails jd_utc jd e :
    julian_day_steps birth_date_str birth_time_str jd_utc ->
    Py.getitem jd_utc 0 = Some jd ->
    houses jd latitude longitude "P" = Raise e ->
    step_fails path birth_date_str birth_time_str latitude longitude
| jd_utc_empty jd_utc :
    julian_day_steps birth_date_str birth_time_str jd_utc ->
    Py.getitem jd_utc 0 = None ->
    step_fails path birth_date_str birth_time_str latitude longitude
| calc_ut_short jd_utc jd name p_id xx r i :
    julian_day_steps birth_date_str birth_time_str jd_utc ->
    Py.getitem jd_utc 0 = Some jd ->
    In (name, p_id) planets ->
    calc_ut path jd p_id FLG_SWIEPH = Ok (xx, r) ->
    (i = 0 \/ i = 1)%Z ->
    Py.getitem xx i = None ->
    step_fails path birth_date_str birth_time_str latitude longitude
| houses_short jd_utc jd cusps ascmc r i :
    julian_day_steps birth_date_str birth_time_str jd_utc ->
    Py.getitem jd_utc 0 = Some jd ->
    houses jd latitude longitude "P" = Ok (cusps, ascmc, r) ->
    (i = 0 \/ i = 1)%Z ->
    Py.getitem ascmc i = None ->
    step_fails path birth_date_str birth_time_str latitude longitude.

(** What a run of the planet loop that returns has done: one [calc_ut]
    per item, each giving at least two numbers, stored under the item's
    name. *)
Inductive loop_run (path : string) (jd_utc : list Q)
  : list (string * Z) -> chart -> chart -> Prop :=
| loop_done natal_positions :
    loop_run path jd_utc [] natal_positions natal_positions
| loop_step name p_id rest natal_positions final jd xx r x0 x1 :
    Py.getitem jd_utc 0 = Some jd ->
    calc_ut path jd p_id FLG_SWIEPH = Ok (xx, r) ->
    Py.getitem xx 0 = Some x0 ->
    Py.getitem xx 1 = Some x1 ->
    loop_run path jd_utc rest
             (dict_set natal_positions name [x0; x1]) final ->
    loop_run path jd_utc ((name, p_id) :: rest) natal_positions final.

(** The dictionary after storing one pair per item, in order. *)
Definition store_all (items : list (string * Z)) (vals : list (Q * Q))
           (natal_positions : chart) : chart :=
  fold_left
    (fun d iv => dict_set d (fst (fst iv)) [fst (snd iv); snd (snd iv)])
    (combine items vals) natal_positions.

(** The chart assembled from ten pairs and the two angles. *)
Definition chart_of (vals : list (Q * Q)) (asc mc : Q) : chart :=
  dict_set (dict_set (store_all planets vals []) "ASC" [asc]) "MC" [mc].

(** [v] is what [calc_ut] gave for [item]. *)
Definition from_calc_ut (path : string) (jd_utc : list Q)
           (item : string * Z) (v : Q * Q) : Prop :=
  exists jd xx r,
    Py.getitem jd_utc 0 = Some jd /\
    calc_ut path jd (snd item) FLG_SWIEPH = Ok (xx, r) /\
    Py.getitem xx 0 = Some (fst v) /\
    Py.getitem xx 1 = Some (snd v).

End Predicates.

(** A computation whose result depends on the world only through the
    ephemeris path, and which leaves that path alone. *)
Definition stable {A : Type} (m : M A) : Prop :=
  forall w1 w2,
    ephe_path w1 = ephe_path w2 ->
    fst (m w1) = fst (m w2) /\
    ephe_path (snd (m w1)) = ephe_path (snd (m w2)) /\
    ephe_path (snd (m w1)) = ephe_path w1.

Section RequestPredicates.

Context `{DateTimeLib}.

(** The message has the three fields, the first one holds a date and a
    time that both parse. *)
Definition well_formed_request (event : MessageEvent)
           (birth_date_str birth_time_str region city : string) : Prop :=
  exists first rest d t,
    map Py.strip (Py.split Py.comma (Py.strip (text event)))
    = [first; region; city] /\
    Py.split Py.space first = birth_date_str :: birth_time_str :: rest /\
    strptime birth_date_str "%Y-%m-%d" = inr d /\
    strptime birth_time_str "%H:%M" = inr t.

End RequestPredicates.

(** The log records written by [handle_message] up to the reply that
    announces the computation. *)
Definition parse_log (event : MessageEvent) : list effect :=
  [ Log INFO [Lit "Received message: "; Str (text event)];
    Log INFO [Lit "Attempting to parse horoscope input: '";
              Str (Py.strip (text event)); Lit "'"];
    Log INFO [Lit "Sent loading message to prevent webhook timeout."] ].

Section UrlPredicates.

Context `{Config}.

(** The address requested for a city and a region. *)
Definition geocode_url (city region : string) : string :=
  "https://maps.googleapis.com/maps/api/geocode/json?address="
  ++ (city ++ ", " ++ region ++ ", Japan")
  ++ "&key=" ++ GOOGLE_GEOCODING_API_KEY.

End UrlPredicates.

(** The line of the prompt for one chart entry. *)
Definition body_line (name sign : string) (lon : Q) : fstring :=
  [Lit "- "; Str name; Lit ": "; Str sign; Lit " ("; Fixed2 lon;
   Lit ("度)" ++ nl)].

(** [line] is the prompt line of [entry]: its name, the sign of its first
    number and that number. *)
Definition line_for (entry : string * list Q) (line : fstring) : Prop :=
  exists lon sign,
    Py.getitem (snd entry) 0 = Some lon /\
    get_zodiac_sign lon = Some sign /\
    line = body_line (fst entry) sign lon.

(** The whole prompt around the body lines. *)
Definition prompt_of (lines : list fstring) : list fstring :=
  ([[Lit prompt_intro]; [Lit prompt_heading]] ++ lines
   ++ [[Lit prompt_closing]])%list.

(** The text chosen by the [except] clause of
    [generate_horoscope_interpretation] from [str(e)]. *)
Definition gemini_error_text (message : string) : string :=
  if Py.contains "403 Client Error" message || Py.contains "Forbidden" message
  then forbidden_text
  else if Py.contains "Quota exceeded" message
          || Py.contains "rate limit" message
  then quota_text
  else if Py.contains "timeout" message then timeout_text
  else network_text.

(** The log record of a prompt and the request that carries it. *)
Definition prompt_log (prompt : list fstring) : effect :=
  Log INFO (Lit "LLM Prompt: " :: List.concat prompt).

Definition request_of (prompt : list fstring) : effect :=
  GenerateContent "gemini-2.0-flash" prompt 60.

(** Two charts with the same names and the same first numbers. *)
Definition same_longitudes (c1 c2 : chart) : Prop :=
  Forall2 (fun a b => fst a = fst b /\
                      Py.getitem (snd a) 0 = Py.getitem (snd b) 0) c1 c2.

Section PipelinePredicates.

Context `{DateTimeLib} `{SwissEph} `{Requests} `{LineBotApi} `{GenAI}
        `{Config}.

(** The statements of the [try] block of [handle_message] that follow the
    reply announcing the computation. *)
Definition after_loading_reply (event : MessageEvent)
           (birth_date_str birth_time_str region city : string) : M unit :=
  ' (lat, lon) <- get_coordinates city region ;;
  match lat, lon with
  | Some lat, Some lon =>
      natal_positions <-
        calculate_natal_chart birth_date_str birth_time_str lat lon ;;
      match natal_positions with
      | None =>
          push_message (user_id event) chart_error_text ;;
          log ERROR [Lit "Failed to calculate natal chart."]
      | Some natal_positions =>
          interpretation <-
            generate_horoscope_interpretation natal_positions ;;
          push_message (user_id event) (result_prefix ++ interpretation) ;;
          log INFO [Lit "Pushed final horoscope reply to user ";
                    Str (user_id event)]
      end
  | _, _ =>
      push_message (user_id event) geocode_error_text ;;
      log ERROR [Lit "Failed to get coordinates."]
  end.

End PipelinePredicates.

(** Log records and messages to the user. *)
Definition is_line_or_log (ef : effect) : bool :=
  match ef with
  | Log _ _ | LineReply _ _ | LinePush _ _ => true
  | _ => false
  end.

(** The effects that only [calculate_natal_chart] performs: its calls to
    the ephemeris and its two log records. *)
Definition is_chart_effect (ef : effect) : bool :=
  match ef with
  | SweUtcToJd _ _ | SweCalcUt _ _ _ | SweHouses _ _ _ _ => true
  | Log INFO [Lit s] => String.eqb s "Horoscope calculation completed."
  | Log ERROR (Lit s :: _) =>
      String.eqb s "Error during natal chart calculation: "
  | _ => false
  end.

Definition is_lookup (ef : effect) : bool :=
  match ef with
  | HttpGet _ => true
  | _ => false
  end.

Definition is_generate (ef : effect) : bool :=
  match ef with
  | GenerateContent _ _ _ => true
  | _ => false
  end.

(** Effects that belong neither to the chart computation nor to the
    interpretation. *)
Definition quiet (ef : effect) : Prop :=
  is_chart_effect ef = false /\ is_generate ef = false.

(** A computation that only adds effects to the trace. *)
Definition grows {A : Type} (m : M A) : Prop :=
  forall w, exists new, snd (m w) = after w new.

(** ** Library instances for concrete runs *)

Module Fixture.

Definition datetime_lib : DateTimeLib := {|
  strptime := fun s format =>
    if String.eqb s "1990-01-01 12:30" then inr (Datetime 1990 1 1 12 30 0)
    else if String.eqb s "1990-01-01" then inr (Datetime 1990 1 1 0 0 0)
    else if String.eqb s "12:30" then inr (Datetime 1900 1 1 12 30 0)
    else inl ("time data does not match format " ++ format);
  localize := fun _ dt => Ok (dt, 32400%Z);
  astimezone_utc := fun a =>
    let dt := fst a in
    if (9 <=? hour dt)%Z
    then Ok (Datetime (year dt) (month dt) (day dt) (hour dt - 9)
                      (minute dt) (second dt))
    else Raise (Exn OverflowError "date value out of range") |}.

(** Every body at 10 degrees into the sign numbered like the body. *)
Definition toy_longitude (p_id : Z) : Q :=
  inject_Z ((30 * p_id + 10) mod 360).

Definition swiss_eph : SwissEph := {|
  SUN := 0; MOON := 1; MERCURY := 2; VENUS := 3; MARS := 4; JUPITER := 5;
  SATURN := 6; URANUS := 7; NEPTUNE := 8; PLUTO := 9;
  FLG_SWIEPH := 2;
  utc_to_jd := fun _ _ => Ok [2447892.6466; 2447892.6460];
  calc_ut := fun _ _ p_id flag =>
    Ok ([toy_longitude p_id; 0.5; 1; 0; 0; 0], flag);
  houses := fun _ _ _ _ =>
    Ok ([15; 45; 75; 105; 135; 165; 195; 225; 255; 285; 315; 345],
        [15; 285; 0; 0; 0; 0; 0; 0; 0; 0], 0%Z) |}.

(** The same ephemeris with the file for Mars missing. *)
Definition swiss_eph_no_mars : SwissEph := {|
  SUN := 0; MOON := 1; MERCURY := 2; VENUS := 3; MARS := 4; JUPITER := 5;
  SATURN := 6; URANUS := 7; NEPTUNE := 8; PLUTO := 9;
  FLG_SWIEPH := 2;
  utc_to_jd := fun _ _ => Ok [2447892.6466; 2447892.6460];
  calc_ut := fun _ _ p_id flag =>
    if (p_id =? 4)%Z
    then Raise (Exn SweError "SwissEph file 'sepl_18.se1' not found")
    else Ok ([toy_longitude p_id; 0.5; 1; 0; 0; 0], flag);
  houses := fun _ _ _ _ =>
    Ok ([15; 45; 75; 105; 135; 165; 195; 225; 255; 285; 315; 345],
        [15; 285; 0; 0; 0; 0; 0; 0; 0; 0], 0%Z) |}.

Definition requests_found : Requests := {|
  requests_get := fun _ _ =>
    Ok (GeocodeJson "OK" [Location (Some 35.66) (Some 139.75)] None) |}.

Definition requests_not_found : Requests := {|
  requests_get := fun _ _ => Ok (GeocodeJson "ZERO_RESULTS" [] None) |}.

Definition line_bot_api : LineBotApi := {|
  line_reply := fun _ _ _ => None;
  line_push := fun _ _ _ => None |}.

Definition gen_ai : GenAI := {|
  generate_content := fun _ _ _ _ => Ok (Some "interpretation") |}.

Definition config : Config := {|
  GOOGLE_GEOCODING_API_KEY := "geocoding-key";
  GEMINI_API_KEY := "gemini-key" |}.

Definition w0 : world := World "ephe" [].

Definition w1 : world :=
  World "ephe" [Log INFO [Lit "Received message: "; Str "こんにちは"]].

Definition scenario1 : MessageEvent :=
  Event "1990-01-01 12:30, 東京都, 港区" "U1" "T1".

Definition scenario4 : MessageEvent :=
  Event "1990-01-01 12:30, Nowhere, Nowhere" "U1" "T1".

Definition no_time : MessageEvent :=
  Event "1990-01-01, 東京都, 港区" "U1" "T1".

Definition requests_timeout : Requests := {|
  requests_get := fun _ _ => Raise (Exn RequestException "Read timed out.") |}.

(** A request that fails with an exception of another class. *)
Definition requests_unexpected : Requests := {|
  requests_get := fun _ _ => Raise (Exn OtherException "unexpected failure") |}.

Definition requests_undecodable : Requests := {|
  requests_get := fun _ _ =>
    Raise (Exn JSONDecodeError "Expecting value: line 1 column 1 (char 0)") |}.

Definition config_no_key : Config := {|
  GOOGLE_GEOCODING_API_KEY := "";
  GEMINI_API_KEY := "gemini-key" |}.

Definition line_bot_api_down : LineBotApi := {|
  line_reply := fun _ _ _ => Some (Exn LineBotApiError "Invalid reply token");
  line_push := fun _ _ _ => Some (Exn LineBotApiError "Service unavailable") |}.

Definition gen_ai_forbidden : GenAI := {|
  generate_content := fun _ _ _ _ =>
    Raise (Exn OtherException "403 Forbidden: request timeout policy") |}.

Definition sample_chart : chart :=
  [("Sun", [280.5; 1.02]); ("Moon", [33.25; 13.1]); ("ASC", [15])].

Definition sample_chart_no_speed : chart :=
  [("Sun", [280.5]); ("Moon", [33.25; 0]); ("ASC", [15; 7; 7])].

Definition broken_chart : chart :=
  [("Sun", [280.5; 1.02]); ("Moon", []); ("ASC", [15])].

Definition greeting : MessageEvent := Event "  こんにちは　" "U1" "T1".

Definition hello : MessageEvent := Event "hello" "U1" "T1".

Definition wrong_date : MessageEvent :=
  Event "1990-13-40 12:30, 東京都, 港区" "U1" "T1".

Definition wrong_time : MessageEvent :=
  Event "1990-01-01 25:61, 東京都, 港区" "U1" "T1".

Definition environment (name : string) : option string :=
  if String.eqb name "LINE_CHANNEL_SECRET" then Some "secret"
  else if String.eqb name "LINE_CHANNEL_ACCESS_TOKEN" then Some "token"
  else if String.eqb name "GOOGLE_GEOCODING_API_KEY" then Some "geocoding-key"
  else None.

(** The same environment with an empty access token and no geocoding
    key. *)
Definition environment_incomplete (name : string) : option string :=
  if String.eqb name "LINE_CHANNEL_SECRET" then Some "secret"
  else if String.eqb name "LINE_CHANNEL_ACCESS_TOKEN" then Some ""
  else None.

Definition chart_run : result (option chart) * world :=
  @calculate_natal_chart datetime_lib swiss_eph
    "1990-01-01" "12:30" 35.66 139.75 w0.

End Fixture.

(** * Properties *)

(** ** The zodiac classifier *)

Section Zodiac.

Local Open Scope Z_scope.

Lemma sign_index_range (longitude : Q) : 0 <= sign_index longitude < 12.
Proof. unfold sign_index, Py.mod_. apply Z.mod_pos_bound. lia. Qed.

Lemma getitem_zodiac_signs (i : Z) :
  0 <= i < 12 ->
  exists sign, Py.getitem zodiac_signs i = Some sign /\ In sign zodiac_signs.
Proof.
  intros Hi.
  assert (Hcases : i = 0 \/ i = 1 \/ i = 2 \/ i = 3 \/ i = 4 \/ i = 5 \/
                   i = 6 \/ i = 7 \/ i = 8 \/ i = 9 \/ i = 10 \/ i = 11)
    by lia.
  repeat (destruct Hcases as [-> | Hcases]); try subst i;
    (eexists; split; [reflexivity | simpl; tauto]).
Qed.

(** On a non-negative float [int] is the floor. *)
Lemma int_floor_nonneg (x : Q) : (0 <= x)%Q -> Py.int x = Qfloor x.
Proof.
  intros Hx. unfold Py.int. destruct x as [n d]. simpl.
  apply Z.quot_div_nonneg; [| lia].
  unfold Qle in Hx. simpl in Hx. lia.
Qed.

(** On a non-positive float [int] is the ceiling. *)
Lemma int_ceiling_nonpos (x : Q) : (x <= 0)%Q -> Py.int x = Qceiling x.
Proof.
  intros Hx. unfold Py.int, Qceiling, Qfloor. destruct x as [n d]. simpl.
  unfold Qle in Hx. simpl in Hx.
  rewrite <- (Z.opp_involutive n) at 1.
  rewrite Z.quot_opp_l by lia.
  rewrite Z.quot_div_nonneg by lia. reflexivity.
Qed.

Lemma Qfloor_unique (x : Q) (n : Z) :
  (inject_Z n <= x)%Q -> (x < inject_Z (n + 1))%Q -> Qfloor x = n.
Proof.
  intros Hlo Hhi.
  assert (Hge : n <= Qfloor x).
  { rewrite <- (Qfloor_Z n). apply Qfloor_resp_le. exact Hlo. }
  assert (Hlt : Qfloor x < n + 1).
  { rewrite Zlt_Qlt. eapply Qle_lt_trans; [apply Qfloor_le | exact Hhi]. }
  lia.
Qed.

Lemma Qfloor_shift (x : Q) (k : Z) :
  Qfloor (x + inject_Z k) = Qfloor x + k.
Proof.
  apply Qfloor_unique.
  - rewrite inject_Z_plus. apply Qplus_le_l. apply Qfloor_le.
  - replace (Qfloor x + k + 1) with ((Qfloor x + 1) + k) by lia.
    rewrite inject_Z_plus. apply Qplus_lt_l. apply Qlt_floor.
Qed.

Lemma div30_shift (L : Q) (k : Z) :
  ((L + 360 * inject_Z k) / 30 == L / 30 + inject_Z (12 * k))%Q.
Proof. rewrite inject_Z_mult. change (inject_Z 12) with 12%Q. field. Qed.

Lemma div30_nonneg (L : Q) : (0 <= L)%Q -> (0 <= L / 30)%Q.
Proof.
  intros HL. unfold Qdiv. apply Qmult_le_0_compat; [exact HL |].
  apply Qinv_le_0_compat. discriminate.
Qed.

(** With the exact quotient, the classifier has period 360 where every
    longitude involved is non-negative. *)
Lemma get_zodiac_sign_periodic_nonneg (L : Q) (k : Z) :
  (0 <= L)%Q -> (0 <= L + 360 * inject_Z k)%Q ->
  get_zodiac_sign (L + 360 * inject_Z k) = get_zodiac_sign L.
Proof.
  intros HL HLk. unfold get_zodiac_sign. f_equal.
  unfold sign_index, Py.mod_.
  rewrite !int_floor_nonneg by (apply div30_nonneg; assumption).
  rewrite (Qfloor_comp _ _ (div30_shift L k)), Qfloor_shift.
  rewrite (Z.mul_comm 12 k). apply Z.mod_add. lia.
Qed.

Lemma band_floor (L : Q) (k : Z) :
  (inject_Z (30 * k) <= L)%Q -> (L < inject_Z (30 * (k + 1)))%Q ->
  Qfloor (L / 30) = k.
Proof.
  intros Hlo Hhi. apply Qfloor_unique.
  - apply Qle_shift_div_l; [reflexivity |].
    change 30%Q with (inject_Z 30).
    rewrite <- (inject_Z_mult k 30), Z.mul_comm. exact Hlo.
  - apply Qlt_shift_div_r; [reflexivity |].
    change 30%Q with (inject_Z 30).
    rewrite <- (inject_Z_mult (k + 1) 30), Z.mul_comm. exact Hhi.
Qed.

Lemma getitem_nonneg {A : Type} (l : list A) (i : Z) :
  0 <= i -> Py.getitem l i = nth_error l (Z.to_nat i).
Proof.
  intros Hi. unfold Py.getitem.
  destruct (Z.leb_spec 0 i); [reflexivity | lia].
Qed.

(** C3: [get_zodiac_sign] returns on every longitude: the index
    [int(L / 30) % 12] lies in 0..11, so the lookup in the twelve-element
    list never raises, and the result is one of the twelve signs. *)
Theorem get_zodiac_sign_total (L : Q) :
  0 <= sign_index L <= 11 /\
  List.length zodiac_signs = 12%nat /\
  exists sign, get_zodiac_sign L = Some sign /\ In sign zodiac_signs.
Proof.
  pose proof (sign_index_range L) as Hr.
  split; [lia |]. split; [reflexivity |].
  apply getitem_zodiac_signs. exact Hr.
Qed.

(** C2: on [0, 360) the sign is the one numbered [floor(L / 30) mod 12],
    each sign owning the closed-open band [30k, 30(k+1)); 0 and 29.999
    give the first sign, 30 the second, 359.999999 the twelfth, and 360
    the same sign as 0. *)
Theorem get_zodiac_sign_bands (L : Q) :
  (0 <= L)%Q /\ (L < 360)%Q ->
  sign_index L = Qfloor (L / 30) mod 12 /\
  get_zodiac_sign L
  = nth_error zodiac_signs (Z.to_nat (Qfloor (L / 30) mod 12)) /\
  (forall k : Z,
      0 <= k < 12 ->
      (inject_Z (30 * k) <= L)%Q /\ (L < inject_Z (30 * (k + 1)))%Q ->
      get_zodiac_sign L = nth_error zodiac_signs (Z.to_nat k)) /\
  get_zodiac_sign 0 = Some "牡羊座" /\
  get_zodiac_sign 29.999 = Some "牡羊座" /\
  get_zodiac_sign 30 = Some "牡牛座" /\
  get_zodiac_sign 359.999999 = Some "魚座" /\
  get_zodiac_sign 360 = get_zodiac_sign 0.
Proof.
  intros [HL0 HL360].
  assert (Hidx : sign_index L = Qfloor (L / 30) mod 12).
  { unfold sign_index, Py.mod_.
    rewrite int_floor_nonneg by (apply div30_nonneg; exact HL0).
    reflexivity. }
  split; [exact Hidx |]. split.
  { unfold get_zodiac_sign. rewrite getitem_nonneg.
    - rewrite Hidx. reflexivity.
    - apply sign_index_range. }
  split.
  { intros k Hk [Hlo Hhi]. unfold get_zodiac_sign.
    rewrite getitem_nonneg by apply sign_index_range.
    rewrite Hidx, (band_floor L k Hlo Hhi), Z.mod_small by lia.
    reflexivity. }
  repeat split; reflexivity.
Qed.

Lemma get_zodiac_sign_bands_witness :
  ((0 <= 45)%Q /\ (45 < 360)%Q) /\
  get_zodiac_sign 45 = nth_error zodiac_signs 1.
Proof.
  assert (Hrange : (0 <= 45)%Q /\ (45 < 360)%Q)
    by (split; [discriminate | reflexivity]).
  split; [exact Hrange |].
  destruct (get_zodiac_sign_bands 45 Hrange) as (_ & _ & Hband & _).
  apply (Hband 1); [lia | split; [discriminate | reflexivity]].
Defined.

(** C1, at a negative longitude: -10 degrees is classified as the first
    sign while -10 + 360 = 350 degrees is classified as the twelfth, so
    the classifier does not have period 360 there, and -10 is not
    classified as its normalisation 350. *)
Theorem get_zodiac_sign_negative_longitude :
  get_zodiac_sign (-10) = Some "牡羊座" /\
  get_zodiac_sign (-10 + 360 * inject_Z 1) = Some "魚座" /\
  get_zodiac_sign (-10) <> get_zodiac_sign (-10 + 360 * inject_Z 1).
Proof. repeat split; try reflexivity. discriminate. Qed.

End Zodiac.

(** ** Running monadic code *)

Section MonadFacts.

Lemma after_after w a b : after (after w a) b = after w (a ++ b).
Proof. unfold after. simpl. rewrite app_assoc. reflexivity. Qed.

Lemma after_nil w : after w [] = w.
Proof. destruct w. unfold after. simpl. rewrite app_nil_r. reflexivity. Qed.

Lemma bind_ok_inv {A B : Type} (m : M A) (f : A -> M B) w b w' :
  bind m f w = (Ok b, w') ->
  exists a w1, m w = (Ok a, w1) /\ f a w1 = (Ok b, w').
Proof.
  unfold bind. destruct (m w) as [[a | e] w1]; intros Heq.
  - exists a, w1. split; [reflexivity | exact Heq].
  - discriminate.
Qed.

Lemma bind_raise_inv {A B : Type} (m : M A) (f : A -> M B) w e w' :
  bind m f w = (Raise e, w') ->
  m w = (Raise e, w') \/
  exists a w1, m w = (Ok a, w1) /\ f a w1 = (Raise e, w').
Proof.
  unfold bind. destruct (m w) as [[a | e0] w1]; intros Heq.
  - right. exists a, w1. split; [reflexivity | exact Heq].
  - left. inversion Heq; subst. reflexivity.
Qed.

Lemma bind_raise {A B : Type} (m : M A) (f : A -> M B) w e w1 :
  m w = (Raise e, w1) -> bind m f w = (Raise e, w1).
Proof. unfold bind. intros ->. reflexivity. Qed.

Lemma bind_ok {A B : Type} (m : M A) (f : A -> M B) w a w1 :
  m w = (Ok a, w1) -> bind m f w = f a w1.
Proof. unfold bind. intros ->. reflexivity. Qed.

Lemma try_except_bind_ok {A B : Type} (m : M A) (f : A -> M B) h w a w1 :
  m w = (Ok a, w1) ->
  try_except (bind m f) h w = try_except (f a) h w1.
Proof. unfold try_except, bind. intros ->. reflexivity. Qed.

Lemma try_except_bind_raise {A B : Type} (m : M A) (f : A -> M B) h w e w1 :
  m w = (Raise e, w1) ->
  try_except (bind m f) h w = h e w1.
Proof. unfold try_except, bind. intros ->. reflexivity. Qed.

Lemma getitem_ok_inv {A : Type} what (l : list A) i w a w' :
  getitem what l i w = (Ok a, w') -> Py.getitem l i = Some a /\ w' = w.
Proof.
  unfold getitem. destruct (Py.getitem l i); cbv [ret raise]; intros Heq;
    inversion Heq; subst; auto.
Qed.

Lemma getitem_some {A : Type} what (l : list A) i w a :
  Py.getitem l i = Some a -> getitem what l i w = (Ok a, w).
Proof. unfold getitem. intros ->. reflexivity. Qed.

Lemma getitem_raise_inv {A : Type} what (l : list A) i w e w' :
  getitem what l i w = (Raise e, w') -> Py.getitem l i = None.
Proof.
  unfold getitem. destruct (Py.getitem l i); cbv [ret raise]; intros Heq;
    [discriminate | reflexivity].
Qed.

Lemma of_result_raise_inv {A : Type} (r : result A) w e w' :
  of_result r w = (Raise e, w') -> r = Raise e.
Proof.
  destruct r; cbv [of_result ret raise]; intros Heq; inversion Heq; auto.
Qed.

Lemma of_result_ok_inv {A : Type} (r : result A) w a w' :
  of_result r w = (Ok a, w') -> r = Ok a /\ w' = w.
Proof.
  destruct r; cbv [of_result ret raise]; intros Heq; inversion Heq; auto.
Qed.

End MonadFacts.

(** ** The natal chart *)

Section Chart.

Context `{DateTimeLib} `{SwissEph}.

Lemma strptime_m_ok_inv s format w dt w' :
  strptime_m s format w = (Ok dt, w') ->
  strptime s format = inr dt /\ w' = w.
Proof.
  unfold strptime_m. destruct (strptime s format);
    cbv [ret raise]; intros Heq; inversion Heq; auto.
Qed.

Lemma swe_utc_to_jd_ok_inv utc flag w jd_utc w' :
  swe_utc_to_jd utc flag w = (Ok jd_utc, w') ->
  utc_to_jd utc flag = Ok jd_utc /\ w' = after w [SweUtcToJd utc flag].
Proof.
  unfold swe_utc_to_jd. intros Heq.
  apply bind_ok_inv in Heq as ([] & w1 & Hemit & Heq).
  inversion Hemit; subst; clear Hemit.
  apply of_result_ok_inv in Heq as [-> ->]. split; reflexivity.
Qed.

Lemma swe_calc_ut_ok_inv jd p_id flag w v w' :
  swe_calc_ut jd p_id flag w = (Ok v, w') ->
  calc_ut (ephe_path w) jd p_id flag = Ok v /\
  w' = after w [SweCalcUt jd p_id flag].
Proof.
  unfold swe_calc_ut. intros Heq.
  apply bind_ok_inv in Heq as ([] & w1 & Hemit & Heq).
  inversion Hemit; subst; clear Hemit.
  apply bind_ok_inv in Heq as (path & w2 & Hpath & Heq).
  inversion Hpath; subst; clear Hpath.
  apply of_result_ok_inv in Heq as [Hcalc ->]. simpl in Hcalc.
  split; [exact Hcalc | reflexivity].
Qed.

Lemma swe_houses_ok_inv jd latitude longitude hsys w v w' :
  swe_houses jd latitude longitude hsys w = (Ok v, w') ->
  houses jd latitude longitude hsys = Ok v /\
  w' = after w [SweHouses jd latitude longitude hsys].
Proof.
  unfold swe_houses. intros Heq.
  apply bind_ok_inv in Heq as ([] & w1 & Hemit & Heq).
  inversion Hemit; subst; clear Hemit.
  apply of_result_ok_inv in Heq as [-> ->]. split; reflexivity.
Qed.

(** A run of the loop that returns is a [loop_run], and has only added
    effects. *)
Lemma planet_loop_run jd_utc items :
  forall natal_positions w final w',
    planet_loop jd_utc items natal_positions w = (Ok final, w') ->
    loop_run (ephe_path w) jd_utc items natal_positions final /\
    exists new, w' = after w new.
Proof.
  induction items as [| [name p_id] rest IH]; intros np w final w' Hrun.
  - inversion Hrun; subst.
    split; [constructor | exists []; symmetry; apply after_nil].
  - simpl in Hrun.
    apply bind_ok_inv in Hrun as (jd & w1 & Hjd & Hrun).
    apply getitem_ok_inv in Hjd as [Hjd ->].
    apply bind_ok_inv in Hrun as ([xx r] & w2 & Hcalc & Hrun).
    apply swe_calc_ut_ok_inv in Hcalc as [Hcalc ->].
    apply bind_ok_inv in Hrun as (x0 & w3 & Hx0 & Hrun).
    apply getitem_ok_inv in Hx0 as [Hx0 ->].
    apply bind_ok_inv in Hrun as (x1 & w4 & Hx1 & Hrun).
    apply getitem_ok_inv in Hx1 as [Hx1 ->].
    apply IH in Hrun as [Hrest (new & ->)]. simpl in Hrest.
    split.
    + econstructor; eassumption.
    + eexists. apply after_after.
Qed.

(** In a [loop_run] every item's [calc_ut] returned at least two
    numbers. *)
Lemma loop_run_calls path jd_utc items natal_positions final :
  loop_run path jd_utc items natal_positions final ->
  forall name p_id,
    In (name, p_id) items ->
    exists jd xx r x0 x1,
      Py.getitem jd_utc 0 = Some jd /\
      calc_ut path jd p_id FLG_SWIEPH = Ok (xx, r) /\
      Py.getitem xx 0 = Some x0 /\
      Py.getitem xx 1 = Some x1.
Proof.
  induction 1 as [| name0 p0 rest np final jd xx r x0 x1 Hjd Hcalc Hx0 Hx1 _ IH];
    intros name p_id Hin.
  - destruct Hin.
  - destruct Hin as [Heq | Hin].
    + inversion Heq; subst. exists jd, xx, r, x0, x1. auto.
    + eauto.
Qed.

(** What the [try] block has done when it runs to its end. *)
Lemma calculate_natal_chart_try_inv d t latitude longitude w w' res :
  calculate_natal_chart_try d t latitude longitude w = (Ok res, w') ->
  exists jd_utc jd natal_positions cusps ascmc r asc mc,
    julian_day_steps d t jd_utc /\
    Py.getitem jd_utc 0 = Some jd /\
    loop_run (ephe_path w) jd_utc planets [] natal_positions /\
    houses jd latitude longitude "P" = Ok (cusps, ascmc, r) /\
    Py.getitem ascmc 0 = Some asc /\
    Py.getitem ascmc 1 = Some mc /\
    res = Some (dict_set (dict_set natal_positions "ASC" [asc]) "MC" [mc]) /\
    exists new,
      w' = after w (new ++ [Log INFO [Lit "Horoscope calculation completed."]]).
Proof.
  unfold calculate_natal_chart_try. intros Hbody.
  apply bind_ok_inv in Hbody as (dt & w2 & Hdt & Hbody).
  apply strptime_m_ok_inv in Hdt as [Hdt ->].
  apply bind_ok_inv in Hbody as (local_dt & w2 & Hloc & Hbody).
  apply of_result_ok_inv in Hloc as [Hloc ->].
  apply bind_ok_inv in Hbody as (utc_dt & w2 & Hutc & Hbody).
  apply of_result_ok_inv in Hutc as [Hutc ->].
  apply bind_ok_inv in Hbody as (jd_utc & w2 & Hjdutc & Hbody).
  apply swe_utc_to_jd_ok_inv in Hjdutc as [Hjdutc ->].
  apply bind_ok_inv in Hbody as (np & w2 & Hloop & Hbody).
  apply planet_loop_run in Hloop as [Hloop (new & ->)]. simpl in Hloop.
  apply bind_ok_inv in Hbody as (jd & w3 & Hjd & Hbody).
  apply getitem_ok_inv in Hjd as [Hjd ->].
  apply bind_ok_inv in Hbody as ([[cusps ascmc] r] & w3 & Hhouses & Hbody).
  apply swe_houses_ok_inv in Hhouses as [Hhouses ->].
  apply bind_ok_inv in Hbody as (asc & w3 & Hasc & Hbody).
  apply getitem_ok_inv in Hasc as [Hasc ->].
  apply bind_ok_inv in Hbody as (mc & w3 & Hmc & Hbody).
  apply getitem_ok_inv in Hmc as [Hmc ->].
  rewrite (bind_ok _ _ _ _ _ (eq_refl : log _ _ _ = (Ok tt, after _ [_])))
    in Hbody.
  inversion Hbody; subst; clear Hbody.
  exists jd_utc, jd, np, cusps, ascmc, r, asc, mc.
  repeat split; try assumption.
  - exists dt, local_dt, utc_dt. auto.
  - exists (SweUtcToJd utc_dt FLG_SWIEPH
            :: new ++ [SweHouses jd latitude longitude "P"])%list.
    rewrite !after_after. f_equal. simpl. rewrite <- app_assoc.
    reflexivity.
Qed.

(** The two ways [calculate_natal_chart] ends: the [try] block ran to its
    end, or it raised and the handler logged the exception and returned
    [None]. *)
Lemma calculate_natal_chart_cases d t latitude longitude w :
  (exists res w',
      calculate_natal_chart_try d t latitude longitude w = (Ok res, w') /\
      calculate_natal_chart d t latitude longitude w = (Ok res, w')) \/
  (exists e w1,
      calculate_natal_chart_try d t latitude longitude w = (Raise e, w1) /\
      calculate_natal_chart d t latitude longitude w
      = (Ok None,
         after w1 [Log ERROR [Lit "Error during natal chart calculation: ";
                              Str (str e)]])).
Proof.
  unfold calculate_natal_chart, try_except.
  destruct (calculate_natal_chart_try d t latitude longitude w)
    as [[res | e] w1].
  - left. eauto.
  - right. exists e, w1. split; reflexivity.
Qed.

(** What [calculate_natal_chart] has done when it returns a chart. *)
Lemma calculate_natal_chart_inv d t latitude longitude w w' c :
  calculate_natal_chart d t latitude longitude w = (Ok (Some c), w') ->
  exists jd_utc jd natal_positions cusps ascmc r asc mc,
    julian_day_steps d t jd_utc /\
    Py.getitem jd_utc 0 = Some jd /\
    loop_run (ephe_path w) jd_utc planets [] natal_positions /\
    houses jd latitude longitude "P" = Ok (cusps, ascmc, r) /\
    Py.getitem ascmc 0 = Some asc /\
    Py.getitem ascmc 1 = Some mc /\
    c = dict_set (dict_set natal_positions "ASC" [asc]) "MC" [mc].
Proof.
  intros Hrun.
  destruct (calculate_natal_chart_cases d t latitude longitude w)
    as [(res & w1 & Htry & Hcalc) | (e & w1 & _ & Hcalc)];
    rewrite Hcalc in Hrun; [| discriminate].
  inversion Hrun; subst; clear Hrun.
  apply calculate_natal_chart_try_inv in Htry
    as (jd_utc & jd & np & cusps & ascmc & r & asc & mc & Hs & Hjd & Hl
        & Hh & Hasc & Hmc & Hres & _).
  inversion Hres; subst.
  exists jd_utc, jd, np, cusps, ascmc, r, asc, mc. repeat split; assumption.
Qed.

End Chart.

Section ChartShape.

Context `{DateTimeLib} `{SwissEph}.

Lemma loop_run_store path jd_utc items natal_positions final :
  loop_run path jd_utc items natal_positions final ->
  exists vals,
    Forall2 (from_calc_ut path jd_utc) items vals /\
    final = store_all items vals natal_positions.
Proof.
  induction 1 as [np | name p_id rest np final jd xx r x0 x1
                       Hjd Hcalc Hx0 Hx1 _ (vals & Hvals & Hfinal)].
  - exists []. split; [constructor | reflexivity].
  - exists ((x0, x1) :: vals). split.
    + constructor; [| exact Hvals]. exists jd, xx, r. auto.
    + exact Hfinal.
Qed.

Lemma julian_day_steps_unique d t jd_utc jd_utc' :
  julian_day_steps d t jd_utc -> julian_day_steps d t jd_utc' ->
  jd_utc = jd_utc'.
Proof.
  intros (dt & loc & utc & Hdt & Hloc & Hutc & Hjd)
         (dt' & loc' & utc' & Hdt' & Hloc' & Hutc' & Hjd').
  congruence.
Qed.

(** A returned chart is [chart_of] ten pairs given by [calc_ut] and the
    first two numbers given by [houses]. *)
Lemma calculate_natal_chart_shape d t latitude longitude w w' c :
  calculate_natal_chart d t latitude longitude w = (Ok (Some c), w') ->
  exists jd_utc jd vals cusps ascmc r asc mc,
    julian_day_steps d t jd_utc /\
    Py.getitem jd_utc 0 = Some jd /\
    Forall2 (from_calc_ut (ephe_path w) jd_utc) planets vals /\
    houses jd latitude longitude "P" = Ok (cusps, ascmc, r) /\
    Py.getitem ascmc 0 = Some asc /\
    Py.getitem ascmc 1 = Some mc /\
    c = chart_of vals asc mc.
Proof.
  intros Hrun.
  apply calculate_natal_chart_inv in Hrun
    as (jd_utc & jd & np & cusps & ascmc & r & asc & mc
        & Hsteps & Hjd & Hloop & Hhouses & Hasc & Hmc & ->).
  apply loop_run_store in Hloop as (vals & Hvals & ->).
  exists jd_utc, jd, vals, cusps, ascmc, r, asc, mc.
  repeat split; assumption.
Qed.

(** [calculate_natal_chart] never raises. *)
Lemma calculate_natal_chart_returns d t latitude longitude w :
  exists r w', calculate_natal_chart d t latitude longitude w = (Ok r, w').
Proof.
  destruct (calculate_natal_chart_cases d t latitude longitude w)
    as [(res & w1 & _ & Hcalc) | (e & w1 & _ & Hcalc)];
    rewrite Hcalc; eauto.
Qed.

End ChartShape.

(** Splits a list of known length into its elements. *)
Ltac explode vals Hlen :=
  repeat (destruct vals as [| ? vals]; [discriminate Hlen |]);
  destruct vals; [| discriminate Hlen].

Section ChartContents.

Context `{DateTimeLib} `{SwissEph}.

Lemma chart_of_ten v0 v1 v2 v3 v4 v5 v6 v7 v8 v9 asc mc :
  chart_of [v0; v1; v2; v3; v4; v5; v6; v7; v8; v9] asc mc
  = [ ("Sun", [fst v0; snd v0]); ("Moon", [fst v1; snd v1]);
      ("Mercury", [fst v2; snd v2]); ("Venus", [fst v3; snd v3]);
      ("Mars", [fst v4; snd v4]); ("Jupiter", [fst v5; snd v5]);
      ("Saturn", [fst v6; snd v6]); ("Uranus", [fst v7; snd v7]);
      ("Neptune", [fst v8; snd v8]); ("Pluto", [fst v9; snd v9]);
      ("ASC", [asc]); ("MC", [mc]) ].
Proof. reflexivity. Qed.

Lemma chart_names_NoDup : NoDup chart_names.
Proof.
  unfold chart_names.
  repeat (constructor; [simpl; intuition discriminate |]).
  constructor.
Qed.

Lemma Forall2_In_r {A B : Type} (P : A -> B -> Prop) l l' :
  Forall2 P l l' ->
  forall b, In b l' -> exists a, In a l /\ P a b.
Proof.
  induction 1 as [| a b l l' Hab _ IH]; intros b' Hin.
  - destruct Hin.
  - destruct Hin as [<- | Hin].
    + exists a. split; [left; reflexivity | exact Hab].
    + destruct (IH b' Hin) as (a' & Ha' & HP).
      exists a'. split; [right; exact Ha' | exact HP].
Qed.

(** C4: a chart that is returned has exactly the twelve entries Sun, Moon,
    Mercury, Venus, Mars, Jupiter, Saturn, Uranus, Neptune, Pluto, ASC and
    MC, each once.  Its longitudes are the numbers the ephemeris gave, so
    they lie in [0, 360) when the answers to the calls of this very run do:
    the ten [calc_ut] calls for the bodies at [jd_utc[0]] with [FLG_SWIEPH],
    and the [houses] call at [jd_utc[0]] for the given place with system
    "P". *)
Theorem calculate_natal_chart_complete d t latitude longitude w w' c :
  calculate_natal_chart d t latitude longitude w = (Ok (Some c), w') ->
  map fst c = chart_names /\
  NoDup (map fst c) /\
  List.length c = 12%nat /\
  ((forall jd_utc jd name p_id xx r x,
       julian_day_steps d t jd_utc ->
       Py.getitem jd_utc 0 = Some jd ->
       In (name, p_id) planets ->
       calc_ut (ephe_path w) jd p_id FLG_SWIEPH = Ok (xx, r) ->
       Py.getitem xx 0 = Some x -> 0 <= x /\ x < 360) ->
   (forall jd_utc jd cusps ascmc r i x,
       julian_day_steps d t jd_utc ->
       Py.getitem jd_utc 0 = Some jd ->
       houses jd latitude longitude "P" = Ok (cusps, ascmc, r) ->
       (i = 0 \/ i = 1)%Z ->
       Py.getitem ascmc i = Some x -> 0 <= x /\ x < 360) ->
   forall name pos,
     In (name, pos) c ->
     exists x, Py.getitem pos 0 = Some x /\ 0 <= x /\ x < 360).
Proof.
  intros Hrun.
  apply calculate_natal_chart_shape in Hrun
    as (jd_utc & jd & vals & cusps & ascmc & r & asc & mc
        & Hsteps & Hjd & Hvals & Hhouses & Hasc & Hmc & ->).
  pose proof (Forall2_length Hvals) as Hlen. symmetry in Hlen.
  assert (Hplanet :
            (forall jd_utc jd name p_id xx r x,
                julian_day_steps d t jd_utc ->
                Py.getitem jd_utc 0 = Some jd ->
                In (name, p_id) planets ->
                calc_ut (ephe_path w) jd p_id FLG_SWIEPH = Ok (xx, r) ->
                Py.getitem xx 0 = Some x -> 0 <= x /\ x < 360) ->
            forall v, In v vals -> 0 <= fst v /\ fst v < 360).
  { intros Hcalc v Hv.
    destruct (Forall2_In_r _ _ _ Hvals v Hv)
      as ([name p_id] & Hitem & jd' & xx & r' & Hjd' & Hc & Hx0 & _).
    eapply (Hcalc jd_utc jd' name p_id); eassumption. }
  clear Hvals. explode vals Hlen.
  rewrite chart_of_ten.
  split; [reflexivity |].
  split; [exact chart_names_NoDup |].
  split; [reflexivity |].
  intros Hcalc Hangles name pos Hin.
  specialize (Hplanet Hcalc).
  simpl in Hin.
  repeat (destruct Hin as [Hin | Hin];
          [inversion Hin; subst; clear Hin;
           eexists; split; [reflexivity |]; simpl |]);
    try (apply Hplanet; simpl; tauto).
  - eapply (Hangles jd_utc jd cusps ascmc r 0%Z); eauto.
  - eapply (Hangles jd_utc jd cusps ascmc r 1%Z); eauto.
  - destruct Hin.
Qed.

(** C10: in a chart that is returned each of the ten planets is stored as
    a pair and ASC and MC as 1-tuples, so that reading [pos[1]] of ASC or
    MC raises [IndexError]. *)
Theorem chart_entries_heterogeneous d t latitude longitude w w' c :
  calculate_natal_chart d t latitude longitude w = (Ok (Some c), w') ->
  (forall name p_id,
      In (name, p_id) planets ->
      exists lon speed, dict_get c name = Some [lon; speed]) /\
  (forall name,
      name = "ASC" \/ name = "MC" ->
      exists lon,
        dict_get c name = Some [lon] /\
        forall w0,
          getitem "tuple" [lon] 1 w0
          = (Raise (Exn IndexError "tuple index out of range"), w0)).
Proof.
  intros Hrun.
  apply calculate_natal_chart_shape in Hrun
    as (jd_utc & jd & vals & cusps & ascmc & r & asc & mc
        & _ & _ & Hvals & _ & _ & _ & ->).
  pose proof (Forall2_length Hvals) as Hlen. symmetry in Hlen.
  clear Hvals. explode vals Hlen.
  rewrite chart_of_ten. split.
  - intros name p_id Hin. unfold planets in Hin. simpl in Hin.
    repeat (destruct Hin as [Hin | Hin];
            [inversion Hin; subst; clear Hin;
             eexists; eexists; reflexivity |]).
    destruct Hin.
  - intros name [-> | ->]; eexists; (split; [reflexivity |]);
      intros w0; reflexivity.
Qed.

End ChartContents.

Section ChartFailure.

Context `{DateTimeLib} `{SwissEph}.

(** C5: when a step of the computation raises (the timestamp does not
    parse, a time conversion fails, the ephemeris cannot compute a body,
    the house computation fails, a returned tuple is too short),
    [calculate_natal_chart] returns [None], after logging the exception; no
    chart, partial or filled with defaults, is returned. *)
Theorem failed_step_returns_None d t latitude longitude w :
  step_fails (ephe_path w) d t latitude longitude ->
  exists e w1,
    calculate_natal_chart d t latitude longitude w
    = (Ok None,
       after w1 [Log ERROR [Lit "Error during natal chart calculation: ";
                            Str (str e)]]).
Proof.
  intros Hfail.
  destruct (calculate_natal_chart_cases d t latitude longitude w)
    as [(res & w1 & Htry & _) | (e & w1 & _ & Hcalc)]; [exfalso | eauto].
  apply calculate_natal_chart_try_inv in Htry
    as (jd_utc & jd & np & cusps & ascmc & r & asc & mc & Hsteps & Hjd
        & Hloop & Hhouses & Hasc & Hmc & _).
  destruct Hfail as [msg Hs | dt e Hs Hl | dt loc e Hs Hl Ha
                     | dt loc utc e Hs Hl Ha Hu
                     | jd_utc' jd' name p_id e Hsteps' Hjd' Hin Hcalc
                     | jd_utc' jd' e Hsteps' Hjd' Hh
                     | jd_utc' Hsteps' Hjd'
                     | jd_utc' jd' name p_id xx r' i Hsteps' Hjd' Hin Hcalc
                               Hi Hshort
                     | jd_utc' jd' cusps' ascmc' r' i Hsteps' Hjd' Hh Hi
                               Hshort].
  1-4: destruct Hsteps as (dt0 & loc0 & utc0 & Hs0 & Hl0 & Ha0 & Hu0);
       congruence.
  all: rewrite (julian_day_steps_unique _ _ _ _ Hsteps' Hsteps) in Hjd'.
  - destruct (loop_run_calls _ _ _ _ _ Hloop name p_id Hin)
      as (jd0 & xx & r0 & x0 & x1 & Hjd0 & Hok & _).
    congruence.
  - congruence.
  - congruence.
  - destruct (loop_run_calls _ _ _ _ _ Hloop name p_id Hin)
      as (jd0 & xx0 & r0 & x0 & x1 & Hjd0 & Hok & Hx0 & Hx1).
    assert (xx0 = xx) by congruence. subst xx0.
    destruct Hi as [-> | ->]; congruence.
  - assert (ascmc' = ascmc) by congruence. subst ascmc'.
    destruct Hi as [-> | ->]; congruence.
Qed.

(** *** The converse: [None] is returned only when a step raises *)

Lemma strptime_m_raise_inv s format w e w' :
  strptime_m s format w = (Raise e, w') -> exists msg, strptime s format = inl msg.
Proof.
  unfold strptime_m. destruct (strptime s format) as [msg | dt];
    cbv [ret raise]; intros Heq; [eauto | discriminate].
Qed.

Lemma swe_utc_to_jd_raise_inv utc flag w e w' :
  swe_utc_to_jd utc flag w = (Raise e, w') -> utc_to_jd utc flag = Raise e.
Proof.
  unfold swe_utc_to_jd. intros Heq.
  apply bind_raise_inv in Heq as [Heq | ([] & w1 & _ & Heq)];
    [discriminate |].
  eapply of_result_raise_inv; eassumption.
Qed.

Lemma swe_calc_ut_raise_inv jd p_id flag w e w' :
  swe_calc_ut jd p_id flag w = (Raise e, w') ->
  calc_ut (ephe_path w) jd p_id flag = Raise e.
Proof.
  unfold swe_calc_ut. intros Heq.
  apply bind_raise_inv in Heq as [Heq | ([] & w1 & Hemit & Heq)];
    [discriminate |].
  inversion Hemit; subst; clear Hemit.
  apply bind_raise_inv in Heq as [Heq | (path & w2 & Hpath & Heq)];
    [discriminate |].
  inversion Hpath; subst; clear Hpath.
  eapply of_result_raise_inv; eassumption.
Qed.

Lemma swe_houses_raise_inv jd la lo hsys w e w' :
  swe_houses jd la lo hsys w = (Raise e, w') ->
  houses jd la lo hsys = Raise e.
Proof.
  unfold swe_houses. intros Heq.
  apply bind_raise_inv in Heq as [Heq | ([] & w1 & _ & Heq)];
    [discriminate |].
  eapply of_result_raise_inv; eassumption.
Qed.

(** How the planet loop can raise. *)
Lemma planet_loop_raise_inv jd_utc items :
  forall natal_positions w e w',
    planet_loop jd_utc items natal_positions w = (Raise e, w') ->
    Py.getitem jd_utc 0 = None \/
    exists jd name p_id,
      Py.getitem jd_utc 0 = Some jd /\
      In (name, p_id) items /\
      (calc_ut (ephe_path w) jd p_id FLG_SWIEPH = Raise e \/
       exists xx r i,
         calc_ut (ephe_path w) jd p_id FLG_SWIEPH = Ok (xx, r) /\
         (i = 0 \/ i = 1)%Z /\
         Py.getitem xx i = None).
Proof.
  induction items as [| [name p_id] rest IH]; intros np w e w' Hrun.
  - discriminate Hrun.
  - simpl in Hrun.
    apply bind_raise_inv in Hrun as [Hjd | (jd & w1 & Hjd & Hrun)].
    { left. eapply getitem_raise_inv; eassumption. }
    apply getitem_ok_inv in Hjd as [Hjd ->]. right.
    apply bind_raise_inv in Hrun as [Hcalc | ([xx r] & w2 & Hcalc & Hrun)].
    { apply swe_calc_ut_raise_inv in Hcalc.
      exists jd, name, p_id. split; [exact Hjd |].
      split; [left; reflexivity | left; exact Hcalc]. }
    apply swe_calc_ut_ok_inv in Hcalc as [Hcalc ->].
    apply bind_raise_inv in Hrun as [Hx0 | (x0 & w3 & Hx0 & Hrun)].
    { apply getitem_raise_inv in Hx0.
      exists jd, name, p_id. split; [exact Hjd |].
      split; [left; reflexivity |].
      right. exists xx, r, 0%Z. auto. }
    apply getitem_ok_inv in Hx0 as [Hx0 ->].
    apply bind_raise_inv in Hrun as [Hx1 | (x1 & w4 & Hx1 & Hrun)].
    { apply getitem_raise_inv in Hx1.
      exists jd, name, p_id. split; [exact Hjd |].
      split; [left; reflexivity |].
      right. exists xx, r, 1%Z. auto. }
    apply getitem_ok_inv in Hx1 as [Hx1 ->].
    apply IH in Hrun as [Hnone | (jd' & name' & p' & Hjd' & Hin & Hwhy)].
    + congruence.
    + exists jd', name', p'. split; [exact Hjd' |].
      split; [right; exact Hin | exact Hwhy].
Qed.

(** X11: [None] comes from a failing step only: the predicate [step_fails]
    lists all the ways in which no chart is returned. *)
Lemma None_only_on_failure d t latitude longitude w w' :
  calculate_natal_chart d t latitude longitude w = (Ok None, w') ->
  step_fails (ephe_path w) d t latitude longitude.
Proof.
  intros Hrun.
  destruct (calculate_natal_chart_cases d t latitude longitude w)
    as [(res & w1 & Htry & Hcalc) | (e & w1 & Htry & _)].
  { rewrite Hcalc in Hrun. inversion Hrun; subst.
    apply calculate_natal_chart_try_inv in Htry
      as (? & ? & ? & ? & ? & ? & ? & ? & _ & _ & _ & _ & _ & _ & Hres & _).
    discriminate Hres. }
  clear Hrun. unfold calculate_natal_chart_try in Htry.
  apply bind_raise_inv in Htry as [Hs | (dt & w2 & Hs & Htry)].
  { apply strptime_m_raise_inv in Hs as (msg & Hs).
    eapply strptime_fails; eassumption. }
  apply strptime_m_ok_inv in Hs as [Hs ->].
  apply bind_raise_inv in Htry as [Hl | (loc & w2 & Hl & Htry)].
  { apply of_result_raise_inv in Hl. eapply localize_fails; eassumption. }
  apply of_result_ok_inv in Hl as [Hl ->].
  apply bind_raise_inv in Htry as [Ha | (utc & w2 & Ha & Htry)].
  { apply of_result_raise_inv in Ha. eapply astimezone_fails; eassumption. }
  apply of_result_ok_inv in Ha as [Ha ->].
  apply bind_raise_inv in Htry as [Hu | (jd_utc & w2 & Hu & Htry)].
  { apply swe_utc_to_jd_raise_inv in Hu.
    eapply utc_to_jd_fails; eassumption. }
  apply swe_utc_to_jd_ok_inv in Hu as [Hu ->].
  assert (Hsteps : julian_day_steps d t jd_utc)
    by (exists dt, loc, utc; auto).
  apply bind_raise_inv in Htry as [Hloop | (np & w2 & Hloop & Htry)].
  { apply planet_loop_raise_inv in Hloop
      as [Hnone | (jd & name & p_id & Hjd & Hin
                   & [Hraise | (xx & r & i & Hok & Hi & Hshort)])].
    - eapply jd_utc_empty; eassumption.
    - eapply calc_ut_fails; eassumption.
    - eapply calc_ut_short; eassumption. }
  apply bind_raise_inv in Htry as [Hjd | (jd & w3 & Hjd & Htry)].
  { apply getitem_raise_inv in Hjd. eapply jd_utc_empty; eassumption. }
  apply getitem_ok_inv in Hjd as [Hjd ->].
  apply bind_raise_inv in Htry
    as [Hh | ([[cusps ascmc] r] & w3 & Hh & Htry)].
  { apply swe_houses_raise_inv in Hh. eapply houses_fails; eassumption. }
  apply swe_houses_ok_inv in Hh as [Hh ->].
  apply bind_raise_inv in Htry as [Hasc | (asc & w3 & Hasc & Htry)].
  { apply getitem_raise_inv in Hasc.
    eapply (houses_short _ _ _ _ _ jd_utc jd cusps ascmc r 0%Z); auto. }
  apply getitem_ok_inv in Hasc as [Hasc ->].
  apply bind_raise_inv in Htry as [Hmc | (mc & w3 & Hmc & Htry)].
  { apply getitem_raise_inv in Hmc.
    eapply (houses_short _ _ _ _ _ jd_utc jd cusps ascmc r 1%Z); auto. }
  apply getitem_ok_inv in Hmc as [Hmc ->].
  cbv [bind log emit ret] in Htry. discriminate Htry.
Qed.

(** *** Independence of the effects performed so far *)

Lemma stable_ret {A : Type} (a : A) : stable (ret a).
Proof. intros w1 w2 Hp. simpl. auto. Qed.

Lemma stable_raise {A : Type} (e : exn) : stable (@raise A e).
Proof. intros w1 w2 Hp. simpl. auto. Qed.

Lemma stable_emit ef : stable (emit ef).
Proof. intros w1 w2 Hp. simpl. auto. Qed.

Lemma stable_get_ephe_path : stable get_ephe_path.
Proof. intros w1 w2 Hp. simpl. rewrite Hp. auto. Qed.

Lemma stable_of_result {A : Type} (r : result A) : stable (of_result r).
Proof. destruct r; [apply stable_ret | apply stable_raise]. Qed.

Lemma stable_getitem {A : Type} what (l : list A) i :
  stable (getitem what l i).
Proof.
  unfold getitem. destruct (Py.getitem l i);
    [apply stable_ret | apply stable_raise].
Qed.

Lemma stable_bind {A B : Type} (m : M A) (f : A -> M B) :
  stable m -> (forall a, stable (f a)) -> stable (bind m f).
Proof.
  intros Hm Hf w1 w2 Hp. unfold bind.
  destruct (Hm w1 w2 Hp) as (Hr & Hp' & Hp1).
  destruct (m w1) as [r1 w1'], (m w2) as [r2 w2']. simpl in *. subst r2.
  destruct r1 as [a | e]; simpl; [| auto].
  destruct (Hf a w1' w2' Hp') as (Hr' & Hp'' & Hp1').
  repeat split; congruence.
Qed.

Lemma stable_try_except {A : Type} (m : M A) (h : exn -> M A) :
  stable m -> (forall e, stable (h e)) -> stable (try_except m h).
Proof.
  intros Hm Hh w1 w2 Hp. unfold try_except.
  destruct (Hm w1 w2 Hp) as (Hr & Hp' & Hp1).
  destruct (m w1) as [r1 w1'], (m w2) as [r2 w2']. simpl in *. subst r2.
  destruct r1 as [a | e]; simpl; [auto |].
  destruct (Hh e w1' w2' Hp') as (Hr' & Hp'' & Hp1').
  repeat split; congruence.
Qed.

Create HintDb stable.
Hint Resolve stable_ret stable_raise stable_emit stable_get_ephe_path
     stable_of_result stable_getitem stable_bind stable_try_except
  : stable.
Hint Extern 1 (stable (log _ _)) => apply stable_emit : stable.
Hint Extern 2 (stable (match ?x with pair _ _ => _ end)) =>
       destruct x : stable.

Lemma stable_strptime_m s format : stable (strptime_m s format).
Proof. unfold strptime_m. destruct (strptime s format); auto with stable. Qed.

Lemma stable_swe_utc_to_jd utc flag : stable (swe_utc_to_jd utc flag).
Proof. unfold swe_utc_to_jd. auto with stable. Qed.

Lemma stable_swe_calc_ut jd p_id flag : stable (swe_calc_ut jd p_id flag).
Proof. unfold swe_calc_ut. auto with stable. Qed.

Lemma stable_swe_houses jd la lo hsys : stable (swe_houses jd la lo hsys).
Proof. unfold swe_houses. auto with stable. Qed.

Hint Resolve stable_strptime_m stable_swe_utc_to_jd stable_swe_calc_ut
     stable_swe_houses : stable.

Lemma stable_planet_loop jd_utc items :
  forall natal_positions, stable (planet_loop jd_utc items natal_positions).
Proof.
  induction items as [| [name p_id] rest IH]; intros np; simpl.
  - auto with stable.
  - apply stable_bind; [auto with stable | intros jd].
    apply stable_bind; [auto with stable | intros [xx r]].
    apply stable_bind; [auto with stable | intros x0].
    apply stable_bind; [auto with stable | intros x1].
    apply IH.
Qed.

Hint Resolve stable_planet_loop : stable.

Lemma stable_calculate_natal_chart d t latitude longitude :
  stable (calculate_natal_chart d t latitude longitude).
Proof.
  unfold calculate_natal_chart, calculate_natal_chart_try.
  apply stable_try_except; [| auto with stable].
  repeat (apply stable_bind; [auto with stable | intros ?]);
    repeat match goal with
           | |- stable (match ?x with _ => _ end) => destruct x as [[? ?] ?]
           | |- stable (bind _ _) =>
               apply stable_bind; [auto with stable | intros ?]
           end.
  auto with stable.
Qed.

(** C8: the chart returned for given strings and coordinates does not
    depend on the effects performed before the call: two worlds with the
    same ephemeris path give the same result, and so does calling the
    function again in the world the first call left. *)
Theorem calculate_natal_chart_deterministic d t latitude longitude w1 w2 :
  ephe_path w1 = ephe_path w2 ->
  fst (calculate_natal_chart d t latitude longitude w1)
  = fst (calculate_natal_chart d t latitude longitude w2) /\
  fst (calculate_natal_chart d t latitude longitude
         (snd (calculate_natal_chart d t latitude longitude w1)))
  = fst (calculate_natal_chart d t latitude longitude w1).
Proof.
  intros Hp.
  pose proof (stable_calculate_natal_chart d t latitude longitude) as Hst.
  split.
  - apply (Hst w1 w2 Hp).
  - destruct (Hst w1 w1 eq_refl) as (_ & _ & Hsame).
    apply (Hst _ _ Hsame).
Qed.

End ChartFailure.

Section ChartEffects.

Context `{DateTimeLib} `{SwissEph}.

Lemma grows_ret {A : Type} (a : A) : grows (ret a).
Proof. intros w. exists []. symmetry. apply after_nil. Qed.

Lemma grows_raise {A : Type} (e : exn) : grows (@raise A e).
Proof. intros w. exists []. symmetry. apply after_nil. Qed.

Lemma grows_emit ef : grows (emit ef).
Proof. intros w. exists [ef]. reflexivity. Qed.

Lemma grows_get_ephe_path : grows get_ephe_path.
Proof. intros w. exists []. symmetry. apply after_nil. Qed.

Lemma grows_of_result {A : Type} (r : result A) : grows (of_result r).
Proof. destruct r; [apply grows_ret | apply grows_raise]. Qed.

Lemma grows_getitem {A : Type} what (l : list A) i :
  grows (getitem what l i).
Proof.
  unfold getitem. destruct (Py.getitem l i);
    [apply grows_ret | apply grows_raise].
Qed.

Lemma grows_bind {A B : Type} (m : M A) (f : A -> M B) :
  grows m -> (forall a, grows (f a)) -> grows (bind m f).
Proof.
  intros Hm Hf w. unfold bind.
  destruct (Hm w) as (n1 & Hn1).
  destruct (m w) as [[a | e] w1]; simpl in Hn1; subst w1.
  - destruct (Hf a (after w n1)) as (n2 & Hn2).
    exists (n1 ++ n2)%list. rewrite Hn2. apply after_after.
  - exists n1. reflexivity.
Qed.

Create HintDb grows.
Hint Resolve grows_ret grows_raise grows_emit grows_get_ephe_path
     grows_of_result grows_getitem grows_bind : grows.
Hint Extern 1 (grows (log _ _)) => apply grows_emit : grows.
Hint Extern 2 (grows (match ?x with pair _ _ => _ end)) =>
       destruct x : grows.

Lemma grows_strptime_m s format : grows (strptime_m s format).
Proof. unfold strptime_m. destruct (strptime s format); auto with grows. Qed.

Lemma grows_swe_utc_to_jd utc flag : grows (swe_utc_to_jd utc flag).
Proof. unfold swe_utc_to_jd. auto with grows. Qed.

Lemma grows_swe_calc_ut jd p_id flag : grows (swe_calc_ut jd p_id flag).
Proof. unfold swe_calc_ut. auto with grows. Qed.

Lemma grows_swe_houses jd la lo hsys : grows (swe_houses jd la lo hsys).
Proof. unfold swe_houses. auto with grows. Qed.

Hint Resolve grows_strptime_m grows_swe_utc_to_jd grows_swe_calc_ut
     grows_swe_houses : grows.

Lemma grows_planet_loop jd_utc items :
  forall natal_positions, grows (planet_loop jd_utc items natal_positions).
Proof.
  induction items as [| [name p_id] rest IH]; intros np; simpl.
  - auto with grows.
  - apply grows_bind; [auto with grows | intros jd].
    apply grows_bind; [auto with grows | intros [xx r]].
    apply grows_bind; [auto with grows | intros x0].
    apply grows_bind; [auto with grows | intros x1].
    apply IH.
Qed.

Hint Resolve grows_planet_loop : grows.

Lemma grows_calculate_natal_chart_try d t latitude longitude :
  grows (calculate_natal_chart_try d t latitude longitude).
Proof.
  unfold calculate_natal_chart_try.
  repeat (apply grows_bind; [auto with grows | intros ?]);
    repeat match goal with
           | |- grows (match ?x with _ => _ end) => destruct x as [[? ?] ?]
           | |- grows (bind _ _) =>
               apply grows_bind; [auto with grows | intros ?]
           end.
  auto with grows.
Qed.

(** Every call of [calculate_natal_chart] leaves a chart effect at the end
    of the trace: a trace without chart effects has no call of it. *)
Lemma calculate_natal_chart_leaves_effect d t latitude longitude w :
  exists new ef,
    snd (calculate_natal_chart d t latitude longitude w)
    = after w (new ++ [ef]) /\
    is_chart_effect ef = true.
Proof.
  destruct (calculate_natal_chart_cases d t latitude longitude w)
    as [(res & w' & Htry & Hcalc) | (e & w1 & Htry & Hcalc)];
    rewrite Hcalc; simpl.
  - apply calculate_natal_chart_try_inv in Htry
      as (? & ? & ? & ? & ? & ? & ? & ? & _ & _ & _ & _ & _ & _ & _
          & new & ->).
    eexists. eexists. split; reflexivity.
  - destruct (grows_calculate_natal_chart_try d t latitude longitude w)
      as (new & Hnew).
    rewrite Htry in Hnew. simpl in Hnew. subst w1.
    eexists. eexists. split; [apply after_after | reflexivity].
Qed.

End ChartEffects.

(** ** The message handler *)

Section Strings.

Lemma lower_byte_comma (c : ascii) :
  Ascii.eqb (Py.lower_byte c) Py.comma = Ascii.eqb c Py.comma.
Proof. destruct c as [[] [] [] [] [] [] [] []]; reflexivity. Qed.

Lemma split_not_nil sep s : Py.split sep s <> [].
Proof.
  destruct s as [| c r]; simpl; [discriminate |].
  destruct (Ascii.eqb c sep); [discriminate |].
  destruct (Py.split sep r); discriminate.
Qed.

Lemma split_lower_length s :
  List.length (Py.split Py.comma (Py.lower s))
  = List.length (Py.split Py.comma s).
Proof.
  induction s as [| c r IH]; [reflexivity |].
  simpl. rewrite lower_byte_comma.
  destruct (Ascii.eqb c Py.comma); simpl; [congruence |].
  pose proof (split_not_nil Py.comma r) as Hr.
  pose proof (split_not_nil Py.comma (Py.lower r)) as Hl.
  destruct (Py.split Py.comma r), (Py.split Py.comma (Py.lower r));
    try contradiction.
  simpl in *. exact IH.
Qed.

(** A message with three comma-separated fields is not the greeting. *)
Lemma three_fields_not_greeting s :
  List.length (Py.split Py.comma s) = 3%nat ->
  String.eqb (Py.lower s) "こんにちは" = false.
Proof.
  intros Hlen. apply String.eqb_neq. intros Heq.
  rewrite <- split_lower_length, Heq in Hlen. discriminate Hlen.
Qed.

End Strings.

Section Handler.

Context `{DateTimeLib} `{SwissEph} `{Requests} `{LineBotApi} `{GenAI}
        `{Config}.

Lemma log_run lv msg w : log lv msg w = (Ok tt, after w [Log lv msg]).
Proof. reflexivity. Qed.

Lemma reply_message_run token message w :
  reply_message token message w
  = (match line_reply (trace w) token message with
     | None => Ok tt
     | Some e => Raise e
     end, after w [LineReply token message]).
Proof.
  unfold reply_message. cbv [bind get_trace emit].
  destruct (line_reply (trace w) token message); reflexivity.
Qed.

Lemma push_message_run to message w :
  push_message to message w
  = (match line_push (trace w) to message with
     | None => Ok tt
     | Some e => Raise e
     end, after w [LinePush to message]).
Proof.
  unfold push_message. cbv [bind get_trace emit].
  destruct (line_push (trace w) to message); reflexivity.
Qed.

(** C6, at a message without a time: "1990-01-01, 東京都, 港区" has three
    fields, but its first field has no second word, so [parts[0].split(' ')[1]]
    raises [IndexError]; the generic handler logs it and pushes the
    "unexpected error" text.  Neither the wrong-shape reply nor the wrong
    date/time reply is sent. *)
Theorem missing_time_is_unclassified uid token w :
  let event := Event "1990-01-01, 東京都, 港区" uid token in
  let new :=
    [ Log INFO [Lit "Received message: "; Str (text event)];
      Log INFO [Lit "Attempting to parse horoscope input: '";
                Str (text event); Lit "'"];
      Log ERROR [Lit "Error during horoscope processing: ";
                 Str "list index out of range"];
      LinePush uid unexpected_error_text ] in
  snd (handle_message event w) = after w new /\
  ~ In (LineReply token shape_error_text) new /\
  ~ In (LineReply token syntax_error_text) new.
Proof.
  intros event new. split.
  - unfold handle_message, event.
    rewrite (bind_ok _ _ _ _ _ (log_run _ _ _)).
    cbv [text user_id reply_token].
    change (Py.strip "1990-01-01, 東京都, 港区")
      with "1990-01-01, 東京都, 港区".
    change (Py.lower "1990-01-01, 東京都, 港区" =? "こんにちは")%string
      with false.
    cbv iota.
    rewrite (bind_ok _ _ _ _ _ (log_run _ _ _)).
    change (map Py.strip (Py.split Py.comma "1990-01-01, 東京都, 港区"))
      with ["1990-01-01"; "東京都"; "港区"].
    change (Nat.eqb (List.length ["1990-01-01"; "東京都"; "港区"]) 3)
      with true.
    cbv iota.
    erewrite try_except_bind_ok by (apply getitem_some; reflexivity).
    erewrite try_except_bind_ok by (apply getitem_some; reflexivity).
    erewrite try_except_bind_ok by (apply getitem_some; reflexivity).
    erewrite try_except_bind_raise by reflexivity.
    unfold handle_message_except. cbv [is_ValueError class_of].
    rewrite (bind_ok _ _ _ _ _ (log_run _ _ _)).
    rewrite push_message_run. cbn [snd str user_id].
    rewrite !after_after. reflexivity.
  - split; intros Hin; simpl in Hin; intuition discriminate.
Qed.

Lemma http_get_run url w :
  http_get url w
  = (requests_get (trace w) url, after w [HttpGet url]).
Proof.
  unfold http_get. cbv [bind get_trace emit].
  destruct (requests_get (trace w) url); reflexivity.
Qed.

Ltac solve_after := unfold after; rewrite <- ?app_assoc; reflexivity.

(** [get_coordinates] sends at most one request and does nothing else
    than logging. *)
Lemma get_coordinates_effects city region w r w_geo :
  get_coordinates city region w = (r, w_geo) ->
  exists new,
    w_geo = after w new /\
    Forall quiet new /\
    (List.length (filter is_lookup new) <= 1)%nat.
Proof.
  unfold get_coordinates.
  destruct (String.eqb GOOGLE_GEOCODING_API_KEY "").
  { intros Heq. inversion Heq; subst; clear Heq.
    eexists. split; [solve_after |].
    split; [repeat constructor | simpl; lia]. }
  unfold try_except, bind at 1. rewrite http_get_run.
  destruct (requests_get (trace w) _) as [data | e].
  - match goal with
    | |- context [if ?c then _ else _] => destruct c
    end.
    + unfold bind at 1, getitem.
      destruct (Py.getitem (results data) 0) as [location |].
      * intros Heq. inversion Heq; subst; clear Heq.
        eexists. split; [solve_after |].
        split; [repeat constructor | simpl; lia].
      * cbv [raise is_RequestException is_JSONDecodeError class_of].
        intros Heq. inversion Heq; subst; clear Heq.
        eexists. split; [solve_after |].
        split; [repeat constructor | simpl; lia].
    + intros Heq. inversion Heq; subst; clear Heq.
      eexists. split; [solve_after |].
      split; [repeat constructor | simpl; lia].
  - destruct (is_RequestException e); [| destruct (is_JSONDecodeError e)];
      intros Heq; inversion Heq; subst; clear Heq;
      eexists;
      (split; [solve_after |]);
      (split; [repeat constructor | simpl; lia]).
Qed.

Lemma handle_message_except_grows event e :
  grows (handle_message_except event e).
Proof.
  intros w. unfold handle_message_except. destruct (is_ValueError e).
  - unfold bind. rewrite reply_message_run.
    destruct (line_reply _ _ _); [| rewrite log_run]; cbn [snd];
      rewrite ?after_after; eexists; reflexivity.
  - rewrite (bind_ok _ _ _ _ _ (log_run _ _ _)).
    rewrite push_message_run. cbn [snd]. rewrite after_after.
    eexists; reflexivity.
Qed.

(** X18: a message that is not the greeting and has not exactly three
    fields gets the wrong-shape reply. *)
Lemma wrong_field_count_reply event w :
  String.eqb (Py.lower (Py.strip (text event))) "こんにちは" = false ->
  List.length (Py.split Py.comma (Py.strip (text event))) <> 3%nat ->
  exists tail,
    snd (handle_message event w)
    = after w
        (Log INFO [Lit "Received message: "; Str (text event)]
         :: Log INFO [Lit "Attempting to parse horoscope input: '";
                      Str (Py.strip (text event)); Lit "'"]
         :: LineReply (reply_token event) shape_error_text :: tail).
Proof.
  intros Hgreet Hlen. unfold handle_message.
  rewrite (bind_ok _ _ _ _ _ (log_run _ _ _)), Hgreet.
  rewrite (bind_ok _ _ _ _ _ (log_run _ _ _)), after_after.
  rewrite length_map.
  destruct (Nat.eqb_spec
              (List.length (Py.split Py.comma (Py.strip (text event)))) 3)
    as [Heq | _]; [contradiction |].
  unfold try_except, bind at 1. rewrite reply_message_run.
  destruct (line_reply _ _ _) as [e |].
  - destruct (handle_message_except_grows event e (after w
                ([Log INFO [Lit "Received message: "; Str (text event)]]
                 ++ [Log INFO [Lit "Attempting to parse horoscope input: '";
                               Str (Py.strip (text event)); Lit "'"]]
                 ++ [LineReply (reply_token event) shape_error_text])))
      as (tail & Htail).
    exists tail. rewrite !after_after. simpl app in *.
    rewrite Htail, after_after. reflexivity.
  - rewrite log_run. cbn [snd]. rewrite !after_after.
    eexists. reflexivity.
Qed.

(** X19: a message with three fields whose date does not parse gets the
    wrong date/time reply. *)
Lemma wrong_date_reply event first region city date time rest msg w :
  map Py.strip (Py.split Py.comma (Py.strip (text event)))
  = [first; region; city] ->
  Py.split Py.space first = date :: time :: rest ->
  strptime date "%Y-%m-%d" = inl msg ->
  exists tail,
    snd (handle_message event w)
    = after w
        (Log INFO [Lit "Received message: "; Str (text event)]
         :: Log INFO [Lit "Attempting to parse horoscope input: '";
                      Str (Py.strip (text event)); Lit "'"]
         :: LineReply (reply_token event) syntax_error_text :: tail).
Proof.
  intros Hparts Hfirst Hdate. unfold handle_message.
  rewrite (bind_ok _ _ _ _ _ (log_run _ _ _)).
  rewrite three_fields_not_greeting.
  2: { rewrite <- (length_map Py.strip), Hparts. reflexivity. }
  rewrite (bind_ok _ _ _ _ _ (log_run _ _ _)), after_after.
  rewrite Hparts.
  change (Nat.eqb (List.length [first; region; city]) 3) with true.
  cbv iota.
  erewrite try_except_bind_ok by (apply getitem_some; reflexivity).
  rewrite Hfirst.
  erewrite try_except_bind_ok by (apply getitem_some; reflexivity).
  erewrite try_except_bind_ok by (apply getitem_some; reflexivity).
  rewrite Hfirst.
  erewrite try_except_bind_ok by (apply getitem_some; reflexivity).
  erewrite try_except_bind_ok by (apply getitem_some; reflexivity).
  erewrite try_except_bind_ok by (apply getitem_some; reflexivity).
  erewrite try_except_bind_raise
    by (unfold strptime_m; rewrite Hdate; reflexivity).
  unfold handle_message_except. cbv [is_ValueError class_of].
  unfold bind. rewrite reply_message_run.
  destruct (line_reply _ _ _); [| rewrite log_run]; cbn [snd];
    rewrite !after_after; eexists; reflexivity.
Qed.

(** What happens once the coordinates are missing: the failure text is
    pushed, and whatever follows is replies, pushes and log records. *)
Lemma geocode_failure_tail event W :
  exists r tail,
    try_except
      (push_message (user_id event) geocode_error_text ;;
       log ERROR [Lit "Failed to get coordinates."])
      (handle_message_except event) W
    = (r, after W tail) /\
    In (LinePush (user_id event) geocode_error_text) tail /\
    Forall quiet tail /\
    filter is_lookup tail = [].
Proof.
  unfold try_except, bind at 1. rewrite push_message_run.
  destruct (line_push (trace W) (user_id event) geocode_error_text)
    as [e |].
  - unfold handle_message_except. destruct (is_ValueError e).
    + unfold bind at 1. rewrite reply_message_run.
      destruct (line_reply _ (reply_token event) syntax_error_text);
        [| rewrite log_run]; rewrite ?after_after;
        (eexists; eexists; split; [reflexivity |]);
        (split; [simpl; tauto | split; [repeat constructor | reflexivity]]).
    + rewrite (bind_ok _ _ _ _ _ (log_run _ _ _)).
      rewrite push_message_run, ?after_after.
      (eexists; eexists; split; [reflexivity |]);
        (split; [simpl; tauto | split; [repeat constructor | reflexivity]]).
  - rewrite log_run, ?after_after.
    (eexists; eexists; split; [reflexivity |]);
      (split; [simpl; tauto | split; [repeat constructor | reflexivity]]).
Qed.

(** C9: for a well-formed request whose loading reply went out and for
    which [get_coordinates] returns without both coordinates, the handler
    pushes the geocoding failure text and stops: among all the effects of
    the call there is at most one geocoding request, no effect of
    [calculate_natal_chart] and no call to the interpretation service. *)
Theorem geocode_not_found_halts
        event birth_date_str birth_time_str region city w lat lon w_geo :
  well_formed_request event birth_date_str birth_time_str region city ->
  line_reply (trace w ++ parse_log event) (reply_token event) loading_text
  = None ->
  get_coordinates city region
    (after w (parse_log event
              ++ [LineReply (reply_token event) loading_text]))
  = (Ok (lat, lon), w_geo) ->
  lat = None \/ lon = None ->
  exists r new,
    handle_message event w = (r, after w new) /\
    In (LinePush (user_id event) geocode_error_text) new /\
    Forall quiet new /\
    (List.length (filter is_lookup new) <= 1)%nat.
Proof.
  intros (first & rest & d & t & Hparts & Hfirst & Hdate & Htime)
         Hreply Hgeo Hnone.
  destruct (get_coordinates_effects _ _ _ _ _ Hgeo)
    as (geo & -> & Hquiet & Hcount).
  rewrite after_after in Hgeo.
  set (pre := ((parse_log event
                ++ [LineReply (reply_token event) loading_text]) ++ geo)%list)
    in *.
  destruct (geocode_failure_tail event (after w pre))
    as (r & tail & Htail & Hin & Hqtail & Hlookup).
  exists r, (pre ++ tail)%list.
  split; [| split; [| split]].
  - rewrite <- (after_after w pre tail), <- Htail.
    unfold handle_message.
    rewrite (bind_ok _ _ _ _ _ (log_run _ _ _)).
    rewrite three_fields_not_greeting.
    2: { rewrite <- (length_map Py.strip), Hparts. reflexivity. }
    rewrite (bind_ok _ _ _ _ _ (log_run _ _ _)).
    rewrite after_after.
    rewrite Hparts.
    change (Nat.eqb (List.length [first; region; city]) 3) with true.
    cbv iota.
    erewrite try_except_bind_ok by (apply getitem_some; reflexivity).
    rewrite Hfirst.
    erewrite try_except_bind_ok by (apply getitem_some; reflexivity).
    erewrite try_except_bind_ok by (apply getitem_some; reflexivity).
    rewrite Hfirst.
    erewrite try_except_bind_ok by (apply getitem_some; reflexivity).
    erewrite try_except_bind_ok by (apply getitem_some; reflexivity).
    erewrite try_except_bind_ok by (apply getitem_some; reflexivity).
    erewrite try_except_bind_ok
      by (unfold strptime_m; rewrite Hdate; reflexivity).
    erewrite try_except_bind_ok
      by (unfold strptime_m; rewrite Htime; reflexivity).
    rewrite (try_except_bind_ok _ _ _ _ _ _ (log_run _ _ _)).
    rewrite after_after.
    erewrite try_except_bind_ok.
    2: { rewrite reply_message_run. cbn [trace after].
         simpl app. unfold parse_log in Hreply. rewrite Hreply.
         reflexivity. }
    rewrite after_after. simpl app.
    erewrite try_except_bind_ok by (exact Hgeo).
    destruct Hnone as [-> | ->]; [reflexivity |].
    destruct lat; reflexivity.
  - apply in_or_app. right. exact Hin.
  - apply Forall_app. split; [| exact Hqtail].
    unfold pre. apply Forall_app. split; [repeat constructor | exact Hquiet].
  - rewrite filter_app, length_app, Hlookup. unfold pre.
    rewrite filter_app, length_app. simpl. lia.
Qed.

End Handler.

(** ** Concrete runs *)

Import Fixture.

Lemma toy_longitude_range p_id :
  0 <= toy_longitude p_id /\ toy_longitude p_id < 360.
Proof.
  unfold toy_longitude.
  pose proof (Z.mod_pos_bound (30 * p_id + 10) 360 eq_refl) as [Hlo Hhi].
  split.
  - change 0 with (inject_Z 0). rewrite <- Zle_Qle. exact Hlo.
  - change 360 with (inject_Z 360). rewrite <- Zlt_Qlt. exact Hhi.
Qed.

Lemma calculate_natal_chart_complete_witness :
  exists c w',
    chart_run = (Ok (Some c), w') /\
    map fst c = chart_names /\
    forall name pos,
      In (name, pos) c ->
      exists x, Py.getitem pos 0 = Some x /\ 0 <= x /\ x < 360.
Proof.
  assert (Hrun : exists c w', chart_run = (Ok (Some c), w'))
    by (vm_compute; eauto).
  destruct Hrun as (c & w' & Hrun). exists c, w'.
  split; [exact Hrun |].
  destruct (@calculate_natal_chart_complete datetime_lib swiss_eph
              _ _ _ _ _ _ _ Hrun) as (Hnames & _ & _ & Hrange).
  split; [exact Hnames |].
  apply Hrange.
  - intros jd_utc jd name p_id xx r x _ _ _ Hcalc Hx.
    simpl in Hcalc. inversion Hcalc; subst; clear Hcalc.
    inversion Hx; subst. apply toy_longitude_range.
  - intros jd_utc jd cusps ascmc r i x _ _ Hh [-> | ->] Hx;
      simpl in Hh; inversion Hh; subst; clear Hh;
      inversion Hx; subst; split; (discriminate || reflexivity).
Defined.

Lemma chart_entries_heterogeneous_witness :
  exists c w',
    chart_run = (Ok (Some c), w') /\
    (exists lon speed, dict_get c "Sun" = Some [lon; speed]) /\
    (exists lon, dict_get c "MC" = Some [lon]
                 /\ Py.getitem [lon] 1 = None).
Proof.
  assert (Hrun : exists c w', chart_run = (Ok (Some c), w'))
    by (vm_compute; eauto).
  destruct Hrun as (c & w' & Hrun). exists c, w'.
  split; [exact Hrun |].
  destruct (@chart_entries_heterogeneous datetime_lib swiss_eph
              _ _ _ _ _ _ _ Hrun) as (Hplanets & Hangles).
  split.
  - apply (Hplanets "Sun" (@SUN swiss_eph)). simpl. tauto.
  - destruct (Hangles "MC" (or_intror eq_refl)) as (lon & Hget & _).
    exists lon. split; [exact Hget | reflexivity].
Defined.

Lemma failed_step_returns_None_witness :
  step_fails (H := datetime_lib) (H0 := swiss_eph_no_mars)
             (ephe_path w0) "1990-01-01" "12:30" 35.66 139.75 /\
  fst (@calculate_natal_chart datetime_lib swiss_eph_no_mars
         "1990-01-01" "12:30" 35.66 139.75 w0) = Ok None.
Proof.
  assert (Hfail : step_fails (H := datetime_lib) (H0 := swiss_eph_no_mars)
                    (ephe_path w0) "1990-01-01" "12:30" 35.66 139.75).
  { eapply (calc_ut_fails (H := datetime_lib) (H0 := swiss_eph_no_mars)
              _ _ _ _ _ [2447892.6466; 2447892.6460] 2447892.6466
              "Mars" 4%Z).
    - exists (Datetime 1990 1 1 12 30 0),
             (Datetime 1990 1 1 12 30 0, 32400%Z),
             (Datetime 1990 1 1 3 30 0).
      repeat split; reflexivity.
    - reflexivity.
    - simpl. tauto.
    - reflexivity. }
  split; [exact Hfail |].
  destruct (@failed_step_returns_None datetime_lib swiss_eph_no_mars
              _ _ _ _ _ Hfail) as (e & w1 & Heq).
  rewrite Heq. reflexivity.
Defined.

Lemma calculate_natal_chart_deterministic_witness :
  ephe_path w0 = ephe_path w1 /\
  trace w0 <> trace w1 /\
  fst (@calculate_natal_chart datetime_lib swiss_eph
         "1990-01-01" "12:30" 35.66 139.75 w0)
  = fst (@calculate_natal_chart datetime_lib swiss_eph
           "1990-01-01" "12:30" 35.66 139.75 w1).
Proof.
  split; [reflexivity |]. split; [discriminate |].
  apply (@calculate_natal_chart_deterministic datetime_lib swiss_eph
           "1990-01-01" "12:30" 35.66 139.75 w0 w1 eq_refl).
Defined.

Lemma geocode_not_found_halts_witness :
  exists r new,
    @handle_message datetime_lib swiss_eph requests_not_found line_bot_api
                    gen_ai config scenario4 w0
    = (r, after w0 new) /\
    In (LinePush "U1" geocode_error_text) new /\
    Forall quiet new.
Proof.
  edestruct (@geocode_not_found_halts
               datetime_lib swiss_eph requests_not_found line_bot_api gen_ai
               config scenario4 "1990-01-01" "12:30" "Nowhere" "Nowhere" w0
               None None
               (snd (@get_coordinates requests_not_found config
                       "Nowhere" "Nowhere"
                       (after w0
                          (parse_log scenario4
                           ++ [LineReply (reply_token scenario4)
                                         loading_text])))))
    as (r & new & Hrun & Hin & Hquiet & _).
  - exists "1990-01-01 12:30", [],
           (Datetime 1990 1 1 0 0 0), (Datetime 1900 1 1 12 30 0).
    repeat split; reflexivity.
  - reflexivity.
  - vm_compute. reflexivity.
  - left. reflexivity.
  - exists r, new. auto.
Defined.

(** Scenario 2: "hello" gets the wrong-shape reply. *)
Example hello_wrong_shape :
  snd (@handle_message datetime_lib swiss_eph requests_found line_bot_api
                       gen_ai config (Event "hello" "U1" "T1") w0)
  = after w0
      [ Log INFO [Lit "Received message: "; Str "hello"];
        Log INFO [Lit "Attempting to parse horoscope input: '"; Str "hello";
                  Lit "'"];
        LineReply "T1" shape_error_text;
        Log WARNING [Lit "Invalid input format received."] ].
Proof. reflexivity. Qed.

(** ** More on the zodiac classifier *)

Section ZodiacMore.

Local Open Scope Z_scope.

Lemma zodiac_signs_NoDup : NoDup zodiac_signs.
Proof.
  unfold zodiac_signs.
  repeat (constructor; [simpl; intuition discriminate |]).
  constructor.
Qed.

(** Two indices in range that name the same sign are equal. *)
Lemma getitem_zodiac_signs_inj (i j : Z) :
  0 <= i < 12 -> 0 <= j < 12 ->
  Py.getitem zodiac_signs i = Py.getitem zodiac_signs j -> i = j.
Proof.
  intros Hi Hj Heq.
  rewrite !getitem_nonneg in Heq by lia.
  pose proof zodiac_signs_NoDup as Hnd.
  rewrite NoDup_nth_error in Hnd.
  apply Z2Nat.inj; try lia.
  apply Hnd; [| exact Heq].
  change (List.length zodiac_signs) with 12%nat. lia.
Qed.

(** On a float that is not an integer the ceiling is the floor plus one. *)
Lemma Qceiling_floor_succ (x : Q) :
  ~ (inject_Z (Qfloor x) == x)%Q -> Qceiling x = Qfloor x + 1.
Proof.
  intros Hnot.
  assert (Hlo : (inject_Z (Qfloor x) < x)%Q).
  { destruct (Qle_lt_or_eq _ _ (Qfloor_le x)) as [Hlt | Heq];
      [exact Hlt | contradiction]. }
  assert (Hge : Qfloor x < Qceiling x).
  { rewrite Zlt_Qlt. eapply Qlt_le_trans; [exact Hlo | apply Qle_ceiling]. }
  assert (Hle : Qceiling x - 1 < Qfloor x + 1).
  { rewrite Zlt_Qlt.
    eapply Qlt_trans; [apply Qceiling_lt | apply Qlt_floor]. }
  lia.
Qed.

Lemma div30_neg (L : Q) : (L < 0)%Q -> (L / 30 <= 0)%Q.
Proof.
  intros HL. apply Qle_shift_div_r; [reflexivity |].
  rewrite Qmult_0_l. apply Qlt_le_weak. exact HL.
Qed.

(** With the exact quotient: where a negative longitude that is not a
    multiple of 30 is moved to a non-negative one by whole turns, the
    classifier gives the sign that follows the sign of the moved
    longitude. *)
Lemma sign_index_across_zero (L : Q) (k : Z) :
  (L < 0)%Q ->
  (0 <= L + 360 * inject_Z k)%Q ->
  ~ (inject_Z (Qfloor (L / 30)) == L / 30)%Q ->
  sign_index L = (sign_index (L + 360 * inject_Z k) + 1) mod 12.
Proof.
  intros Hneg Hpos Hfrac.
  assert (Hshift : sign_index (L + 360 * inject_Z k) = Qfloor (L / 30) mod 12).
  { unfold sign_index, Py.mod_.
    rewrite int_floor_nonneg by (apply div30_nonneg; exact Hpos).
    rewrite (Qfloor_comp _ _ (div30_shift L k)), Qfloor_shift.
    rewrite (Z.mul_comm 12 k). apply Z.mod_add. lia. }
  assert (Hhere : sign_index L = (Qfloor (L / 30) + 1) mod 12).
  { unfold sign_index, Py.mod_.
    rewrite int_ceiling_nonpos by (apply div30_neg; exact Hneg).
    rewrite Qceiling_floor_succ by exact Hfrac. reflexivity. }
  rewrite Hhere, Hshift. rewrite Z.add_mod_idemp_l by lia. reflexivity.
Qed.

(** X2: for longitudes of magnitude below [exact_division_bound], where a
    negative longitude that is not a multiple of 30 is moved to a
    non-negative one by whole turns, the classifier gives the sign that
    follows the sign of the moved longitude, hence another sign. *)
Theorem get_zodiac_sign_across_zero (L : Q) (k : Z) :
  (- exact_division_bound < L)%Q /\ (L < 0)%Q ->
  (0 <= L + 360 * inject_Z k)%Q /\
  (L + 360 * inject_Z k < exact_division_bound)%Q ->
  ~ (inject_Z (Qfloor (L / 30)) == L / 30)%Q ->
  sign_index L = (sign_index (L + 360 * inject_Z k) + 1) mod 12 /\
  get_zodiac_sign L <> get_zodiac_sign (L + 360 * inject_Z k).
Proof.
  intros [_ Hneg] [Hpos _] Hfrac.
  pose proof (sign_index_across_zero L k Hneg Hpos Hfrac) as Hidx.
  split; [exact Hidx |].
  unfold get_zodiac_sign. intros Heq.
  apply getitem_zodiac_signs_inj in Heq; try apply sign_index_range.
  pose proof (sign_index_range (L + 360 * inject_Z k)) as Hr.
  rewrite Heq in Hidx.
  destruct (Z.eq_dec (sign_index (L + 360 * inject_Z k)) 11) as [H11 | H11].
  - rewrite H11 in Hidx. discriminate Hidx.
  - rewrite Z.mod_small in Hidx by lia. lia.
Qed.

Lemma get_zodiac_sign_across_zero_witness :
  get_zodiac_sign (-10) <> get_zodiac_sign (-10 + 360 * inject_Z 1).
Proof.
  apply (get_zodiac_sign_across_zero (-10) 1).
  - split; reflexivity.
  - split; [discriminate | reflexivity].
  - intros Heq. discriminate Heq.
Defined.

(** X1: for non-negative longitudes below [exact_division_bound] the
    classifier has period 360: a longitude and the longitude that is
    exactly k turns further get the same sign. *)
Theorem get_zodiac_sign_periodic_bounded (L : Q) (k : Z) :
  (0 <= L)%Q /\ (L < exact_division_bound)%Q ->
  (0 <= L + 360 * inject_Z k)%Q /\
  (L + 360 * inject_Z k < exact_division_bound)%Q ->
  get_zodiac_sign (L + 360 * inject_Z k) = get_zodiac_sign L.
Proof.
  intros [HL _] [HLk _]. apply get_zodiac_sign_periodic_nonneg; assumption.
Qed.

Lemma get_zodiac_sign_periodic_bounded_witness :
  get_zodiac_sign (45 + 360 * inject_Z 2) = get_zodiac_sign 45.
Proof.
  apply (get_zodiac_sign_periodic_bounded 45 2);
    (split; [discriminate | reflexivity]).
Defined.

Lemma floor_div30_range (L : Q) :
  (0 <= L)%Q -> (L < 360)%Q -> 0 <= Qfloor (L / 30) < 12.
Proof.
  intros Hlo Hhi. split.
  - rewrite <- (Qfloor_Z 0). apply Qfloor_resp_le.
    apply div30_nonneg. exact Hlo.
  - rewrite Zlt_Qlt. eapply Qle_lt_trans; [apply Qfloor_le |].
    apply Qlt_shift_div_r; [reflexivity |]. exact Hhi.
Qed.

(** X3: on [0, 360) two longitudes get the same sign exactly when they lie
    in the same 30-degree band: the twelve names are pairwise different. *)
Theorem get_zodiac_sign_same_band (L L' : Q) :
  (0 <= L)%Q /\ (L < 360)%Q ->
  (0 <= L')%Q /\ (L' < 360)%Q ->
  (get_zodiac_sign L = get_zodiac_sign L' <->
   Qfloor (L / 30) = Qfloor (L' / 30)).
Proof.
  intros [Hlo Hhi] [Hlo' Hhi'].
  assert (Hidx : forall M : Q,
             (0 <= M)%Q -> (M < 360)%Q -> sign_index M = Qfloor (M / 30)).
  { intros M HM0 HM1. unfold sign_index, Py.mod_.
    rewrite int_floor_nonneg by (apply div30_nonneg; exact HM0).
    apply Z.mod_small. apply floor_div30_range; assumption. }
  unfold get_zodiac_sign. rewrite (Hidx L), (Hidx L') by assumption.
  split.
  - apply getitem_zodiac_signs_inj; apply floor_div30_range; assumption.
  - intros ->. reflexivity.
Qed.

Lemma get_zodiac_sign_same_band_witness :
  get_zodiac_sign 31 = get_zodiac_sign 59.5 /\
  get_zodiac_sign 29 <> get_zodiac_sign 31.
Proof.
  split.
  - apply (get_zodiac_sign_same_band 31 59.5);
      [split; [discriminate | reflexivity] ..| reflexivity].
  - intros Heq.
    apply (get_zodiac_sign_same_band 29 31) in Heq;
      [discriminate Heq | split; [discriminate | reflexivity] ..].
Defined.

End ZodiacMore.

(** ** More on [get_coordinates] *)

Section Geocoding.

Context `{Requests} `{Config}.

Lemma get_coordinates_unfold city region w :
  GOOGLE_GEOCODING_API_KEY <> "" ->
  get_coordinates city region w
  = match requests_get (trace w) (geocode_url city region) with
    | Ok data =>
        if String.eqb (status data) "OK"
           && negb (Nat.eqb (List.length (results data)) 0)
        then
          match results data with
          | location :: _ =>
              (Ok (json_lat location, json_lng location),
               after w [HttpGet (geocode_url city region);
                        Log INFO [Lit "Geocoding successful. Lat: ";
                                  Num (json_lat location);
                                  Lit ", Lon: ";
                                  Num (json_lng location)]])
          | [] =>
              (Raise (Exn IndexError "list index out of range"),
               after w [HttpGet (geocode_url city region)])
          end
        else
          (Ok (None, None),
           after w [HttpGet (geocode_url city region);
                    Log ERROR
                      [Lit "Geocoding API response status: ";
                       Str (status data); Lit ". Error: ";
                       Str (match error_message data with
                            | Some m => m
                            | None => "No error message provided."
                            end)]])
    | Raise e =>
        if is_RequestException e then
          (Ok (None, None),
           after w [HttpGet (geocode_url city region);
                    Log ERROR [Lit "Error calling Geocoding API: ";
                               Str (str e)]])
        else if is_JSONDecodeError e then
          (Ok (None, None),
           after w [HttpGet (geocode_url city region);
                    Log ERROR [Lit "Error decoding Geocoding API response: ";
                               Str (str e)]])
        else (Raise e, after w [HttpGet (geocode_url city region)])
    end.
Proof.
  intros Hkey. unfold get_coordinates.
  destruct (String.eqb_spec GOOGLE_GEOCODING_API_KEY "") as [Heq | _];
    [contradiction |].
  fold (geocode_url city region).
  unfold try_except, bind at 1. rewrite http_get_run.
  destruct (requests_get (trace w) (geocode_url city region)) as [data | e].
  - destruct (String.eqb (status data) "OK"
              && negb (Nat.eqb (List.length (results data)) 0)).
    + unfold bind at 1, getitem.
      destruct (results data) as [| location rest]; cbn.
      * reflexivity.
      * unfold after. cbn. rewrite <- app_assoc. reflexivity.
    + rewrite (bind_ok _ _ _ _ _ (log_run _ _ _)), after_after. reflexivity.
  - destruct (is_RequestException e); [| destruct (is_JSONDecodeError e)].
    + rewrite (bind_ok _ _ _ _ _ (log_run _ _ _)), after_after. reflexivity.
    + rewrite (bind_ok _ _ _ _ _ (log_run _ _ _)), after_after. reflexivity.
    + reflexivity.
Qed.

Lemma get_coordinates_no_key city region w :
  GOOGLE_GEOCODING_API_KEY = "" ->
  get_coordinates city region w
  = (Ok (None, None),
     after w [Log ERROR [Lit "Google Geocoding API key is missing."]]).
Proof.
  intros Hkey. unfold get_coordinates. rewrite Hkey. reflexivity.
Qed.

(** X4: when the request ([requests.get], [raise_for_status] or
    [response.json()]) raises, a [RequestException] and a [JSONDecodeError]
    do not escape: each is logged with its text, under its own heading, and
    (None, None) is returned; an exception of any other class is raised
    again unchanged, with nothing logged. *)
Theorem get_coordinates_request_exception city region w e :
  GOOGLE_GEOCODING_API_KEY <> "" ->
  requests_get (trace w) (geocode_url city region) = Raise e ->
  (is_RequestException e = true ->
   get_coordinates city region w
   = (Ok (None, None),
      after w [HttpGet (geocode_url city region);
               Log ERROR [Lit "Error calling Geocoding API: ";
                          Str (str e)]])) /\
  (is_RequestException e = false ->
   is_JSONDecodeError e = true ->
   get_coordinates city region w
   = (Ok (None, None),
      after w [HttpGet (geocode_url city region);
               Log ERROR [Lit "Error decoding Geocoding API response: ";
                          Str (str e)]])) /\
  (is_RequestException e = false ->
   is_JSONDecodeError e = false ->
   get_coordinates city region w
   = (Raise e, after w [HttpGet (geocode_url city region)])).
Proof.
  intros Hkey Hreq.
  rewrite (get_coordinates_unfold _ _ _ Hkey), Hreq.
  repeat split.
  - intros ->. reflexivity.
  - intros -> ->. reflexivity.
  - intros -> ->. reflexivity.
Qed.

(** X5: coordinates are returned only for an answer with status "OK" and
    at least one result, and they are the latitude and longitude of its
    first result. *)
Theorem get_coordinates_first_result city region w lat lon :
  fst (get_coordinates city region w) = Ok (lat, lon) ->
  lat <> None \/ lon <> None ->
  exists data first rest,
    requests_get (trace w) (geocode_url city region) = Ok data /\
    status data = "OK" /\
    results data = first :: rest /\
    lat = json_lat first /\
    lon = json_lng first.
Proof.
  intros Hrun Hsome.
  assert (Hnot : (lat, lon) <> (None, None)).
  { intros Heq. inversion Heq; subst. destruct Hsome; congruence. }
  destruct (String.eqb_spec GOOGLE_GEOCODING_API_KEY "") as [Hkey | Hkey].
  { rewrite (get_coordinates_no_key _ _ _ Hkey) in Hrun. simpl in Hrun.
    congruence. }
  rewrite (get_coordinates_unfold _ _ _ Hkey) in Hrun.
  destruct (requests_get (trace w) (geocode_url city region)) as [data | e].
  - destruct (String.eqb_spec (status data) "OK") as [Hok | _];
      destruct (results data) as [| first rest] eqn:Hres; simpl in Hrun;
      try congruence.
    inversion Hrun; subst.
    exists data, first, rest. auto.
  - destruct (is_RequestException e); [| destruct (is_JSONDecodeError e)];
      simpl in Hrun; congruence.
Qed.

(** X6: without a key no request is sent; with a key exactly one request
    is sent, to [geocode_url city region], before anything else. *)
Theorem get_coordinates_one_request city region w :
  (GOOGLE_GEOCODING_API_KEY = "" ->
   get_coordinates city region w
   = (Ok (None, None),
      after w [Log ERROR [Lit "Google Geocoding API key is missing."]])) /\
  (GOOGLE_GEOCODING_API_KEY <> "" ->
   exists rest,
     snd (get_coordinates city region w)
     = after w (HttpGet (geocode_url city region) :: rest) /\
     filter is_lookup rest = []).
Proof.
  split; [apply get_coordinates_no_key |].
  intros Hkey. rewrite (get_coordinates_unfold _ _ _ Hkey).
  destruct (requests_get (trace w) (geocode_url city region)) as [data | e].
  - destruct (String.eqb (status data) "OK"
              && negb (Nat.eqb (List.length (results data)) 0));
      [destruct (results data) |];
      eexists; split; reflexivity.
  - destruct (is_RequestException e); [| destruct (is_JSONDecodeError e)];
      eexists; split; reflexivity.
Qed.

End Geocoding.

Lemma get_coordinates_request_exception_witness :
  fst (@get_coordinates requests_timeout config "港区" "東京都" w0)
  = Ok (None, None) /\
  fst (@get_coordinates requests_undecodable config "港区" "東京都" w0)
  = Ok (None, None) /\
  fst (@get_coordinates requests_unexpected config "港区" "東京都" w0)
  = Raise (Exn OtherException "unexpected failure").
Proof.
  destruct (@get_coordinates_request_exception requests_timeout config
              "港区" "東京都" w0 (Exn RequestException "Read timed out."))
    as (Hcall & _); [discriminate | reflexivity |].
  destruct (@get_coordinates_request_exception requests_undecodable config
              "港区" "東京都" w0
              (Exn JSONDecodeError
                   "Expecting value: line 1 column 1 (char 0)"))
    as (_ & Hdecode & _); [discriminate | reflexivity |].
  destruct (@get_coordinates_request_exception requests_unexpected config
              "港区" "東京都" w0 (Exn OtherException "unexpected failure"))
    as (_ & _ & Hother); [discriminate | reflexivity |].
  rewrite (Hcall eq_refl), (Hdecode eq_refl eq_refl),
    (Hother eq_refl eq_refl).
  repeat split.
Defined.

Lemma get_coordinates_first_result_witness :
  exists data first rest,
    @requests_get requests_found (trace w0)
                  (@geocode_url config "港区" "東京都") = Ok data /\
    status data = "OK" /\
    results data = first :: rest /\
    Some 35.66 = json_lat first /\
    Some 139.75 = json_lng first.
Proof.
  apply (@get_coordinates_first_result requests_found config
           "港区" "東京都" w0 (Some 35.66) (Some 139.75)).
  - reflexivity.
  - left. discriminate.
Defined.

Lemma get_coordinates_one_request_witness :
  @get_coordinates requests_found config_no_key "港区" "東京都" w0
  = (Ok (None, None),
     after w0 [Log ERROR [Lit "Google Geocoding API key is missing."]]) /\
  exists rest,
    snd (@get_coordinates requests_found config "港区" "東京都" w0)
    = after w0 (HttpGet (@geocode_url config "港区" "東京都") :: rest) /\
    filter is_lookup rest = [].
Proof.
  split.
  - apply (@get_coordinates_one_request requests_found config_no_key).
    reflexivity.
  - apply (@get_coordinates_one_request requests_found config).
    discriminate.
Defined.

(** ** More on [generate_horoscope_interpretation] *)

Section Interpretation.

Context `{GenAI} `{Config}.

Local Open Scope list_scope.

Lemma prompt_line_ok name pos lon w :
  Py.getitem pos 0 = Some lon ->
  exists sign,
    get_zodiac_sign lon = Some sign /\
    prompt_line name pos w = (Ok (body_line name sign lon), w).
Proof.
  intros Hlon.
  destruct (getitem_zodiac_signs (sign_index lon) (sign_index_range lon))
    as (sign & Hsign & _).
  exists sign. split; [exact Hsign |].
  unfold prompt_line, getitem, get_zodiac_sign_m, get_zodiac_sign.
  rewrite Hlon. cbv [bind ret]. rewrite Hsign. reflexivity.
Qed.

Lemma prompt_line_raise name pos w :
  Py.getitem pos 0 = None ->
  prompt_line name pos w
  = (Raise (Exn IndexError "tuple index out of range"), w).
Proof.
  intros Hlon. unfold prompt_line, getitem. rewrite Hlon. reflexivity.
Qed.

Lemma prompt_loop_cons name pos rest parts w :
  prompt_loop ((name, pos) :: rest) parts w
  = match prompt_line name pos w with
    | (Ok line, w1) => prompt_loop rest (parts ++ [line]) w1
    | (Raise e, w1) => (Raise e, w1)
    end.
Proof.
  simpl. destruct (String.eqb name "ASC" || String.eqb name "MC");
    reflexivity.
Qed.

(** Where every entry has a first number the loop adds one line per entry,
    in order. *)
Lemma prompt_loop_ok items :
  Forall (fun entry => Py.getitem (snd entry) 0 <> None) items ->
  forall parts w,
  exists lines,
    Forall2 line_for items lines /\
    prompt_loop items parts w = (Ok (parts ++ lines), w).
Proof.
  induction 1 as [| [name pos] rest Hhead _ IH]; intros parts w.
  - exists []. split; [constructor |]. simpl. rewrite app_nil_r. reflexivity.
  - simpl in Hhead.
    destruct (Py.getitem pos 0) as [lon |] eqn:Hlon; [| contradiction].
    destruct (prompt_line_ok name pos lon w Hlon) as (sign & Hsign & Hline).
    destruct (IH (parts ++ [body_line name sign lon]) w)
      as (lines & Hlines & Hrun).
    exists (body_line name sign lon :: lines). split.
    + constructor; [| exact Hlines]. exists lon, sign. auto.
    + rewrite prompt_loop_cons, Hline, Hrun, <- app_assoc. reflexivity.
Qed.

(** Where an entry has an empty tuple the loop raises [IndexError]. *)
Lemma prompt_loop_raise items :
  Exists (fun entry => Py.getitem (snd entry) 0 = None) items ->
  forall parts w,
    prompt_loop items parts w
    = (Raise (Exn IndexError "tuple index out of range"), w).
Proof.
  induction items as [| [name pos] rest IH]; intros Hex parts w.
  - inversion Hex.
  - rewrite prompt_loop_cons.
    destruct (Py.getitem pos 0) as [lon |] eqn:Hlon.
    + destruct (prompt_line_ok name pos lon w Hlon) as (sign & _ & Hline).
      rewrite Hline. apply IH.
      inversion Hex as [? ? Hhead | ? ? Htail]; subst;
        [simpl in Hhead; congruence | exact Htail].
    + rewrite (prompt_line_raise _ _ _ Hlon). reflexivity.
Qed.

(** The loop performs no effect. *)
Lemma prompt_loop_pure items :
  forall parts w, snd (prompt_loop items parts w) = w.
Proof.
  induction items as [| [name pos] rest IH]; intros parts w;
    [reflexivity |].
  rewrite prompt_loop_cons.
  destruct (Py.getitem pos 0) as [lon |] eqn:Hlon.
  - destruct (prompt_line_ok name pos lon w Hlon) as (sign & _ & Hline).
    rewrite Hline. apply IH.
  - rewrite (prompt_line_raise _ _ _ Hlon). reflexivity.
Qed.

(** The function, once the key is known to be there. *)
Lemma generate_unfold c w :
  GEMINI_API_KEY <> "" ->
  generate_horoscope_interpretation c w
  = match prompt_loop c [[Lit prompt_intro]; [Lit prompt_heading]] w with
    | (Ok parts, _) =>
        let prompt := (parts ++ [[Lit prompt_closing]])%list in
        match generate_content (trace w ++ [prompt_log prompt])
                               "gemini-2.0-flash" prompt 60 with
        | Ok (Some text) =>
            (Ok text,
             after w [prompt_log prompt; request_of prompt;
                      Log INFO [Lit "Gemini API interpretation generated successfully."]])
        | Ok None =>
            (Ok no_answer_text,
             after w [prompt_log prompt; request_of prompt;
                      Log ERROR [Lit "LLM API returned no text or unexpected structure."]])
        | Raise e =>
            (Ok (gemini_error_text (str e)),
             after w [prompt_log prompt; request_of prompt;
                      Log ERROR [Lit "Gemini API request failed: ";
                                 Str (str e)]])
        end
    | (Raise e, _) =>
        (Ok (gemini_error_text (str e)),
         after w [Log ERROR [Lit "Gemini API request failed: "; Str (str e)]])
    end.
Proof.
  intros Hkey. unfold generate_horoscope_interpretation.
  destruct (String.eqb_spec GEMINI_API_KEY "") as [Heq | _];
    [contradiction |].
  unfold try_except, bind at 1.
  pose proof (prompt_loop_pure c [[Lit prompt_intro]; [Lit prompt_heading]] w)
    as Hpure.
  destruct (prompt_loop c [[Lit prompt_intro]; [Lit prompt_heading]] w)
    as [[parts | e] w1]; simpl in Hpure; subst w1.
  - cbv zeta.
    rewrite (bind_ok _ _ _ _ _ (log_run _ _ _)).
    unfold bind at 1, model_generate_content.
    cbv [bind get_trace emit]. cbn [trace after].
    fold (prompt_log (parts ++ [[Lit prompt_closing]])).
    destruct (generate_content _ "gemini-2.0-flash" _ 60) as [[text |] | e];
      cbn [of_result ret raise].
    + rewrite log_run. unfold after. cbn [trace ephe_path].
      rewrite <- !app_assoc. reflexivity.
    + rewrite log_run. unfold after. cbn [trace ephe_path].
      rewrite <- !app_assoc. reflexivity.
    + rewrite log_run. cbv beta iota.
      unfold gemini_error_text, after. cbn [trace ephe_path].
      rewrite <- !app_assoc.
      destruct (Py.contains "403 Client Error" (str e)
                || Py.contains "Forbidden" (str e));
        [reflexivity |].
      destruct (Py.contains "Quota exceeded" (str e)
                || Py.contains "rate limit" (str e));
        [reflexivity |].
      destruct (Py.contains "timeout" (str e)); reflexivity.
  - rewrite (bind_ok _ _ _ _ _ (log_run _ _ _)).
    unfold gemini_error_text.
    destruct (Py.contains "403 Client Error" (str e)
              || Py.contains "Forbidden" (str e));
      [reflexivity |].
    destruct (Py.contains "Quota exceeded" (str e)
              || Py.contains "rate limit" (str e));
      [reflexivity |].
    destruct (Py.contains "timeout" (str e)); reflexivity.
Qed.

Lemma gemini_error_text_cases message :
  In (gemini_error_text message)
     [forbidden_text; quota_text; timeout_text; network_text].
Proof.
  unfold gemini_error_text.
  destruct (Py.contains "403 Client Error" message
            || Py.contains "Forbidden" message); [simpl; tauto |].
  destruct (Py.contains "Quota exceeded" message
            || Py.contains "rate limit" message); [simpl; tauto |].
  destruct (Py.contains "timeout" message); simpl; tauto.
Qed.

(** X7: [generate_horoscope_interpretation] never raises: it returns either
    the text the service answered or one of its six fixed messages. *)
Theorem generate_horoscope_interpretation_returns c w :
  exists text,
    fst (generate_horoscope_interpretation c w) = Ok text /\
    (In text [no_key_text; no_answer_text; forbidden_text; quota_text;
              timeout_text; network_text] \/
     exists before prompt,
       generate_content before "gemini-2.0-flash" prompt 60
       = Ok (Some text)).
Proof.
  destruct (String.eqb_spec GEMINI_API_KEY "") as [Hkey | Hkey].
  { unfold generate_horoscope_interpretation. rewrite Hkey.
    exists no_key_text. split; [reflexivity | left; simpl; tauto]. }
  rewrite (generate_unfold _ _ Hkey).
  assert (Herr : forall m,
             In (gemini_error_text m)
                [no_key_text; no_answer_text; forbidden_text; quota_text;
                 timeout_text; network_text]).
  { intros m. pose proof (gemini_error_text_cases m) as Hin.
    simpl in *. tauto. }
  destruct (prompt_loop c _ w) as [[parts | e] w1].
  - cbv zeta.
    destruct (generate_content _ "gemini-2.0-flash" _ 60)
      as [[text |] | e] eqn:Hgen.
    + exists text. split; [reflexivity |]. right. eauto.
    + exists no_answer_text. split; [reflexivity | left; simpl; tauto].
    + eexists. split; [reflexivity | left; apply Herr].
  - eexists. split; [reflexivity | left; apply Herr].
Qed.

(** What is sent for a chart in which every entry has a first number. *)
Lemma generate_request c w :
  GEMINI_API_KEY <> "" ->
  Forall (fun entry => Py.getitem (snd entry) 0 <> None) c ->
  exists lines rest,
    Forall2 line_for c lines /\
    snd (generate_horoscope_interpretation c w)
    = after w (prompt_log (prompt_of lines)
               :: request_of (prompt_of lines) :: rest) /\
    Forall (fun ef => is_generate ef = false) rest /\
    forall text,
      generate_content (trace w ++ [prompt_log (prompt_of lines)])
                       "gemini-2.0-flash" (prompt_of lines) 60
      = Ok (Some text) ->
      fst (generate_horoscope_interpretation c w) = Ok text.
Proof.
  intros Hkey Hall.
  destruct (prompt_loop_ok c Hall [[Lit prompt_intro]; [Lit prompt_heading]] w)
    as (lines & Hlines & Hrun).
  exists lines.
  rewrite (generate_unfold _ _ Hkey), Hrun. cbv zeta.
  match goal with
  | |- context [generate_content ?a ?b ?c ?d] =>
      destruct (generate_content a b c d) as [[text |] | e] eqn:Hgen
  end;
    eexists; (split; [exact Hlines |]); (split; [reflexivity |]);
    (split; [repeat constructor |]); intros text' Heq;
    pose proof (eq_trans (eq_sym Hgen) Heq) as Hboth;
    inversion Hboth; subst; reflexivity.
Qed.

(** X8: for a chart in which every entry has a first number, exactly one
    request is sent; its prompt is the introduction, the heading, one line
    per entry in the order of the chart (name, sign of the first number,
    first number) and the closing; a text answered by the service is
    returned as it is. *)
Theorem interpretation_request c w :
  GEMINI_API_KEY <> "" ->
  Forall (fun entry => Py.getitem (snd entry) 0 <> None) c ->
  exists lines rest,
    Forall2 line_for c lines /\
    snd (generate_horoscope_interpretation c w)
    = after w (prompt_log (prompt_of lines)
               :: request_of (prompt_of lines) :: rest) /\
    Forall (fun ef => is_generate ef = false) rest /\
    forall text,
      generate_content (trace w ++ [prompt_log (prompt_of lines)])
                       "gemini-2.0-flash" (prompt_of lines) 60
      = Ok (Some text) ->
      fst (generate_horoscope_interpretation c w) = Ok text.
Proof. apply generate_request. Qed.

Lemma prompt_line_same name pos pos' w :
  Py.getitem pos 0 = Py.getitem pos' 0 ->
  prompt_line name pos w = prompt_line name pos' w.
Proof.
  intros Heq. unfold prompt_line, getitem. rewrite Heq. reflexivity.
Qed.

Lemma prompt_loop_same c1 c2 :
  same_longitudes c1 c2 ->
  forall parts w, prompt_loop c1 parts w = prompt_loop c2 parts w.
Proof.
  induction 1 as [| [n1 p1] [n2 p2] r1 r2 [Hname Hpos] _ IH];
    intros parts w; [reflexivity |].
  simpl in Hname, Hpos. subst n2.
  rewrite !prompt_loop_cons, (prompt_line_same _ _ _ _ Hpos).
  destruct (prompt_line n1 p2 w) as [[line | e] w1]; [apply IH | reflexivity].
Qed.

(** X9: only the name and the first number of each entry are read: two
    charts that agree on these get the same request, answer and log, whatever
    their other numbers (the speeds) are. *)
Theorem interpretation_ignores_speed c1 c2 w :
  same_longitudes c1 c2 ->
  generate_horoscope_interpretation c1 w
  = generate_horoscope_interpretation c2 w.
Proof.
  intros Hsame. unfold generate_horoscope_interpretation.
  destruct (String.eqb GEMINI_API_KEY ""); [reflexivity |].
  unfold try_except, bind at 1 3.
  rewrite (prompt_loop_same _ _ Hsame). reflexivity.
Qed.

(** X10: a chart with an entry whose tuple is empty makes the prompt loop
    raise [IndexError]; no request is sent, and the message returned is the
    one for a network error. *)
Theorem interpretation_of_empty_entry c name w :
  GEMINI_API_KEY <> "" ->
  In (name, []) c ->
  generate_horoscope_interpretation c w
  = (Ok network_text,
     after w [Log ERROR [Lit "Gemini API request failed: ";
                         Str "tuple index out of range"]]).
Proof.
  intros Hkey Hin.
  rewrite (generate_unfold _ _ Hkey), prompt_loop_raise; [reflexivity |].
  apply Exists_exists. exists (name, []). split; [exact Hin | reflexivity].
Qed.

End Interpretation.

Lemma interpretation_request_witness :
  exists lines rest,
    Forall2 line_for sample_chart lines /\
    snd (@generate_horoscope_interpretation gen_ai config sample_chart w0)
    = after w0 (prompt_log (prompt_of lines)
                :: request_of (prompt_of lines) :: rest) /\
    Forall (fun ef => is_generate ef = false) rest.
Proof.
  destruct (@interpretation_request gen_ai config sample_chart w0)
    as (lines & rest & Hlines & Hrun & Hrest & _).
  - discriminate.
  - repeat constructor; discriminate.
  - exists lines, rest. auto.
Defined.

Lemma interpretation_ignores_speed_witness :
  @generate_horoscope_interpretation gen_ai config sample_chart w0
  = @generate_horoscope_interpretation gen_ai config sample_chart_no_speed w0.
Proof.
  apply (@interpretation_ignores_speed gen_ai config).
  repeat constructor.
Defined.

Lemma interpretation_of_empty_entry_witness :
  @generate_horoscope_interpretation gen_ai config broken_chart w0
  = (Ok network_text,
     after w0 [Log ERROR [Lit "Gemini API request failed: ";
                          Str "tuple index out of range"]]).
Proof.
  apply (@interpretation_of_empty_entry gen_ai config broken_chart "Moon" w0).
  - discriminate.
  - simpl. tauto.
Defined.

(** ** More on [calculate_natal_chart] *)

Section ChartMore.

Context `{DateTimeLib} `{SwissEph}.

Local Open Scope list_scope.

(** The effects of a loop that returns: one [calc_ut] per item, in order,
    all at the same Julian day. *)
Lemma planet_loop_trace jd_utc jd items :
  Py.getitem jd_utc 0 = Some jd ->
  forall natal_positions w final w',
    planet_loop jd_utc items natal_positions w = (Ok final, w') ->
    w' = after w (map (fun item => SweCalcUt jd (snd item) FLG_SWIEPH) items).
Proof.
  intros Hjd0.
  induction items as [| [name p_id] rest IH]; intros np w final w' Hrun.
  - inversion Hrun; subst. symmetry. apply after_nil.
  - simpl in Hrun.
    apply bind_ok_inv in Hrun as (jd' & w1 & Hjd & Hrun).
    apply getitem_ok_inv in Hjd as [Hjd ->].
    assert (jd' = jd) by congruence. subst jd'.
    apply bind_ok_inv in Hrun as ([xx r] & w2 & Hcalc & Hrun).
    apply swe_calc_ut_ok_inv in Hcalc as [Hcalc ->].
    apply bind_ok_inv in Hrun as (x0 & w3 & Hx0 & Hrun).
    apply getitem_ok_inv in Hx0 as [Hx0 ->].
    apply bind_ok_inv in Hrun as (x1 & w4 & Hx1 & Hrun).
    apply getitem_ok_inv in Hx1 as [Hx1 ->].
    apply IH in Hrun. subst w'. rewrite after_after. reflexivity.
Qed.

(** X12: a call that returns a chart has made, in this order, one
    [utc_to_jd] call for the birth time converted from zone Asia/Tokyo to
    UTC, one [calc_ut] call per body from Sun to Pluto, all at the first
    number that [utc_to_jd] returned, and one [houses] call at that number
    with the latitude and longitude given and house system "P"; then it has
    logged its completion.  Nothing else was done. *)
Theorem calculate_natal_chart_calls d t latitude longitude w w' c :
  calculate_natal_chart d t latitude longitude w = (Ok (Some c), w') ->
  exists birth_datetime local_dt utc_dt jd_utc jd,
    strptime (d ++ " " ++ t)%string "%Y-%m-%d %H:%M" = inr birth_datetime /\
    localize "Asia/Tokyo" birth_datetime = Ok local_dt /\
    astimezone_utc local_dt = Ok utc_dt /\
    utc_to_jd utc_dt FLG_SWIEPH = Ok jd_utc /\
    Py.getitem jd_utc 0 = Some jd /\
    w' = after w
           (SweUtcToJd utc_dt FLG_SWIEPH
            :: map (fun item => SweCalcUt jd (snd item) FLG_SWIEPH) planets
            ++ [SweHouses jd latitude longitude "P";
                Log INFO [Lit "Horoscope calculation completed."]]).
Proof.
  intros Hrun.
  destruct (calculate_natal_chart_cases d t latitude longitude w)
    as [(res & w1 & Hbody & Hcalc) | (e & w1 & _ & Hcalc)];
    rewrite Hcalc in Hrun; [| discriminate].
  inversion Hrun; subst; clear Hrun Hcalc.
  unfold calculate_natal_chart_try in Hbody.
  apply bind_ok_inv in Hbody as (dt & w2 & Hdt & Hbody).
  apply strptime_m_ok_inv in Hdt as [Hdt ->].
  apply bind_ok_inv in Hbody as (local_dt & w2 & Hloc & Hbody).
  apply of_result_ok_inv in Hloc as [Hloc ->].
  apply bind_ok_inv in Hbody as (utc_dt & w2 & Hutc & Hbody).
  apply of_result_ok_inv in Hutc as [Hutc ->].
  apply bind_ok_inv in Hbody as (jd_utc & w2 & Hjdutc & Hbody).
  apply swe_utc_to_jd_ok_inv in Hjdutc as [Hjdutc ->].
  apply bind_ok_inv in Hbody as (np & w2 & Hloop & Hbody).
  apply bind_ok_inv in Hbody as (jd & w3 & Hjd & Hbody).
  apply getitem_ok_inv in Hjd as [Hjd ->].
  apply (planet_loop_trace _ _ _ Hjd) in Hloop. subst w2.
  apply bind_ok_inv in Hbody as ([[cusps ascmc] r] & w3 & Hhouses & Hbody).
  apply swe_houses_ok_inv in Hhouses as [Hhouses ->].
  apply bind_ok_inv in Hbody as (asc & w3 & Hasc & Hbody).
  apply getitem_ok_inv in Hasc as [Hasc ->].
  apply bind_ok_inv in Hbody as (mc & w3 & Hmc & Hbody).
  apply getitem_ok_inv in Hmc as [Hmc ->].
  rewrite (bind_ok _ _ _ _ _ (eq_refl : log _ _ _ = (Ok tt, after _ [_])))
    in Hbody.
  inversion Hbody; subst; clear Hbody.
  exists dt, local_dt, utc_dt, jd_utc, jd.
  do 5 (split; [assumption |]).
  rewrite !after_after. reflexivity.
Qed.

Lemma from_calc_ut_functional path jd_utc item v v' :
  from_calc_ut path jd_utc item v -> from_calc_ut path jd_utc item v' ->
  v = v'.
Proof.
  intros (jd & xx & r & Hjd & Hcalc & Hfst & Hsnd)
         (jd' & xx' & r' & Hjd' & Hcalc' & Hfst' & Hsnd').
  assert (jd' = jd) by congruence. subst jd'.
  assert (xx' = xx) by congruence. subst xx'.
  destruct v, v'. simpl in *. congruence.
Qed.

Lemma Forall2_functional {A B : Type} (P : A -> B -> Prop) :
  (forall a b b', P a b -> P a b' -> b = b') ->
  forall l l1 l2, Forall2 P l l1 -> Forall2 P l l2 -> l1 = l2.
Proof.
  intros Hfun l l1 l2 Hl1. revert l2.
  induction Hl1 as [| a b l l1 Hab _ IH]; intros l2 Hl2;
    inversion Hl2; subst; [reflexivity |].
  f_equal; [eapply Hfun; eassumption | apply IH; assumption].
Qed.

(** X13: each entry of a returned chart is what the library answered for
    that very body: under the name of a body stand the first two numbers
    that [calc_ut] returned for its identifier, under ASC and MC the first
    and second number of [houses]; nothing is altered or mixed up. *)
Theorem chart_entries_from_library d t latitude longitude w w' c :
  calculate_natal_chart d t latitude longitude w = (Ok (Some c), w') ->
  exists jd_utc jd cusps ascmc r asc mc,
    julian_day_steps d t jd_utc /\
    Py.getitem jd_utc 0 = Some jd /\
    houses jd latitude longitude "P" = Ok (cusps, ascmc, r) /\
    Py.getitem ascmc 0 = Some asc /\
    Py.getitem ascmc 1 = Some mc /\
    dict_get c "ASC" = Some [asc] /\
    dict_get c "MC" = Some [mc] /\
    forall name p_id,
      In (name, p_id) planets ->
      exists xx r' x0 x1,
        calc_ut (ephe_path w) jd p_id FLG_SWIEPH = Ok (xx, r') /\
        Py.getitem xx 0 = Some x0 /\
        Py.getitem xx 1 = Some x1 /\
        dict_get c name = Some [x0; x1].
Proof.
  intros Hrun.
  apply calculate_natal_chart_shape in Hrun
    as (jd_utc & jd & vals & cusps & ascmc & r & asc & mc
        & Hsteps & Hjd & Hvals & Hhouses & Hasc & Hmc & ->).
  exists jd_utc, jd, cusps, ascmc, r, asc, mc.
  do 5 (split; [assumption |]).
  pose proof (Forall2_length Hvals) as Hlen. symmetry in Hlen.
  explode vals Hlen. rewrite chart_of_ten.
  split; [reflexivity |]. split; [reflexivity |].
  unfold planets in Hvals.
  repeat match goal with
         | Hf : Forall2 _ (_ :: _) (_ :: _) |- _ =>
             inversion Hf; subst; clear Hf
         end.
  intros name p_id Hin. unfold planets in Hin. simpl in Hin.
  repeat (destruct Hin as [Hin | Hin];
          [inversion Hin; subst; clear Hin;
           match goal with
           | Hf : from_calc_ut _ _ (?n, _) _
             |- exists _ _ _ _, _ /\ _ /\ _ /\ dict_get _ ?n = _ =>
               destruct Hf as (jd' & xx & r' & Hjd' & Hcalc & Hx0 & Hx1)
           end;
           assert (jd' = jd) by congruence; subst jd';
           exists xx, r'; eexists; eexists;
           split; [exact Hcalc |];
           split; [exact Hx0 |];
           split; [exact Hx1 | reflexivity] |]).
  destruct Hin.
Qed.

(** X14: the ten planetary entries do not depend on the place: two calls
    for the same date and time that both return a chart agree on every
    body, whatever latitudes and longitudes they were given. *)
Theorem planets_independent_of_place
        d t latitude longitude latitude' longitude' w w1 w2 c1 c2 :
  calculate_natal_chart d t latitude longitude w = (Ok (Some c1), w1) ->
  calculate_natal_chart d t latitude' longitude' w = (Ok (Some c2), w2) ->
  forall name p_id,
    In (name, p_id) planets -> dict_get c1 name = dict_get c2 name.
Proof.
  intros Hrun1 Hrun2.
  apply calculate_natal_chart_shape in Hrun1
    as (jd_utc & jd & vals & cusps & ascmc & r & asc & mc
        & Hsteps & _ & Hvals & _ & _ & _ & ->).
  apply calculate_natal_chart_shape in Hrun2
    as (jd_utc' & jd' & vals' & cusps' & ascmc' & r' & asc' & mc'
        & Hsteps' & _ & Hvals' & _ & _ & _ & ->).
  rewrite (julian_day_steps_unique _ _ _ _ Hsteps' Hsteps) in Hvals'.
  assert (vals' = vals).
  { eapply Forall2_functional; [| exact Hvals' | exact Hvals].
    intros item v v' Hv Hv'. eapply from_calc_ut_functional; eassumption. }
  subst vals'.
  pose proof (Forall2_length Hvals) as Hlen. symmetry in Hlen.
  clear Hvals Hvals'. explode vals Hlen. rewrite !chart_of_ten.
  intros name p_id Hin. unfold planets in Hin. simpl in Hin.
  repeat (destruct Hin as [Hin | Hin];
          [inversion Hin; subst; clear Hin; reflexivity |]).
  destruct Hin.
Qed.

(** X25: every call of [calculate_natal_chart] only adds effects and ends
    on one of its two log records: the completion record when a chart is
    returned, and otherwise the error record, which carries the text of the
    exception that the [try] block raised. *)
Theorem calculate_natal_chart_ends_on_log d t latitude longitude w :
  exists new,
    (exists c,
        calculate_natal_chart d t latitude longitude w
        = (Ok (Some c),
           after w
             (new ++ [Log INFO [Lit "Horoscope calculation completed."]]))) \/
    (exists e,
        calculate_natal_chart_try d t latitude longitude w
        = (Raise e, after w new) /\
        calculate_natal_chart d t latitude longitude w
        = (Ok None,
           after w
             (new ++ [Log ERROR
                        [Lit "Error during natal chart calculation: ";
                         Str (str e)]]))).
Proof.
  destruct (calculate_natal_chart_cases d t latitude longitude w)
    as [(res & w' & Htry & Hcalc) | (e & w1 & Htry & Hcalc)].
  - apply calculate_natal_chart_try_inv in Htry
      as (? & ? & ? & ? & ? & ? & ? & ? & _ & _ & _ & _ & _ & _ & Hres
          & new & ->).
    exists new. left. eexists. rewrite Hcalc, Hres. reflexivity.
  - destruct (grows_calculate_natal_chart_try d t latitude longitude w)
      as (new & Hnew).
    rewrite Htry in Hnew. simpl in Hnew. subst w1.
    exists new. right. exists e. split; [exact Htry |].
    rewrite Hcalc, after_after. reflexivity.
Qed.

End ChartMore.

Section ChartToPrompt.

Context `{DateTimeLib} `{SwissEph} `{GenAI} `{Config}.

(** X15: every chart that [calculate_natal_chart] returns is accepted by
    [generate_horoscope_interpretation]: the prompt is built without error
    and exactly one request is sent, with twelve body lines between the
    introduction, the heading and the closing. *)
Theorem returned_chart_is_interpreted d t latitude longitude w0 w1 c w :
  calculate_natal_chart d t latitude longitude w0 = (Ok (Some c), w1) ->
  GEMINI_API_KEY <> "" ->
  exists lines rest,
    List.length lines = 12%nat /\
    Forall2 line_for c lines /\
    snd (generate_horoscope_interpretation c w)
    = after w (prompt_log (prompt_of lines)
               :: request_of (prompt_of lines) :: rest) /\
    Forall (fun ef => is_generate ef = false) rest.
Proof.
  intros Hrun Hkey.
  apply calculate_natal_chart_shape in Hrun
    as (jd_utc & jd & vals & cusps & ascmc & r & asc & mc
        & _ & _ & Hvals & _ & _ & _ & ->).
  pose proof (Forall2_length Hvals) as Hlen. symmetry in Hlen.
  clear Hvals. explode vals Hlen. rewrite chart_of_ten.
  match goal with
  | |- context [generate_horoscope_interpretation ?c w] =>
      assert (Hall : Forall (fun entry => Py.getitem (snd entry) 0 <> None) c)
        by (repeat constructor; discriminate);
      destruct (generate_request c w Hkey Hall)
        as (lines & rest & Hlines & Hsnd & Hrest & _)
  end.
  exists lines, rest.
  split; [| split; [exact Hlines | split; [exact Hsnd | exact Hrest]]].
  symmetry. apply (Forall2_length Hlines).
Qed.

End ChartToPrompt.

Lemma None_only_on_failure_witness :
  step_fails (H := datetime_lib) (H0 := swiss_eph_no_mars)
             (ephe_path w0) "1990-01-01" "12:30" 35.66 139.75.
Proof.
  eapply (@None_only_on_failure datetime_lib swiss_eph_no_mars
            "1990-01-01" "12:30" 35.66 139.75 w0).
  vm_compute. reflexivity.
Defined.

Lemma calculate_natal_chart_calls_witness :
  exists w',
    chart_run
    = (Ok (Some [("Sun", [toy_longitude 0; 0.5]);
                 ("Moon", [toy_longitude 1; 0.5]);
                 ("Mercury", [toy_longitude 2; 0.5]);
                 ("Venus", [toy_longitude 3; 0.5]);
                 ("Mars", [toy_longitude 4; 0.5]);
                 ("Jupiter", [toy_longitude 5; 0.5]);
                 ("Saturn", [toy_longitude 6; 0.5]);
                 ("Uranus", [toy_longitude 7; 0.5]);
                 ("Neptune", [toy_longitude 8; 0.5]);
                 ("Pluto", [toy_longitude 9; 0.5]);
                 ("ASC", [15]); ("MC", [285])]), w') /\
    List.length (trace w') = 13%nat.
Proof.
  eexists. split; [reflexivity |].
  edestruct (@calculate_natal_chart_calls datetime_lib swiss_eph
               "1990-01-01" "12:30" 35.66 139.75 w0)
    as (dt & loc & utc & jd_utc & jd & _ & _ & _ & _ & _ & Htrace).
  { reflexivity. }
  rewrite Htrace. reflexivity.
Defined.

Lemma chart_entries_from_library_witness :
  dict_get
    match fst chart_run with
    | Ok (Some c) => c
    | _ => []
    end "ASC"
  = Some [15].
Proof.
  edestruct (@chart_entries_from_library datetime_lib swiss_eph
               "1990-01-01" "12:30" 35.66 139.75 w0)
    as (jd_utc & jd & cusps & ascmc & r & asc & mc
        & _ & _ & Hh & Hasc & _ & Hget & _).
  { reflexivity. }
  simpl in Hh. inversion Hh; subst. inversion Hasc; subst.
  exact Hget.
Defined.

Lemma planets_independent_of_place_witness :
  In ("Mars", @MARS swiss_eph) (@planets swiss_eph) /\
  dict_get match fst chart_run with Ok (Some c) => c | _ => [] end "Mars"
  = dict_get
      match fst (@calculate_natal_chart datetime_lib swiss_eph
                   "1990-01-01" "12:30" 43.06 141.35 w0) with
      | Ok (Some c) => c
      | _ => []
      end "Mars".
Proof.
  assert (Hin : In ("Mars", @MARS swiss_eph) (@planets swiss_eph))
    by (simpl; tauto).
  split; [exact Hin |].
  eapply (@planets_independent_of_place datetime_lib swiss_eph
            "1990-01-01" "12:30" 35.66 139.75 43.06 141.35 w0);
    [reflexivity | reflexivity | exact Hin].
Defined.

Lemma returned_chart_is_interpreted_witness :
  exists lines rest,
    List.length lines = 12%nat /\
    snd (@generate_horoscope_interpretation gen_ai config
           match fst chart_run with Ok (Some c) => c | _ => [] end w0)
    = after w0 (prompt_log (prompt_of lines)
                :: request_of (prompt_of lines) :: rest).
Proof.
  edestruct (@returned_chart_is_interpreted datetime_lib swiss_eph gen_ai
               config "1990-01-01" "12:30" 35.66 139.75 w0)
    as (lines & rest & Hlen & _ & Hsnd & _).
  - reflexivity.
  - discriminate.
  - exists lines, rest. split; [exact Hlen | exact Hsnd].
Defined.

(** ** More on [handle_message] *)

Section HandlerMore.

Context `{DateTimeLib} `{SwissEph} `{Requests} `{LineBotApi} `{GenAI}
        `{Config}.

Local Open Scope list_scope.

(** A well-formed request whose loading reply went out runs the rest of the
    [try] block in the world left by that reply. *)
Lemma handle_message_well_formed event date time region city w :
  well_formed_request event date time region city ->
  line_reply (trace w ++ parse_log event) (reply_token event) loading_text
  = None ->
  handle_message event w
  = try_except (after_loading_reply event date time region city)
               (handle_message_except event)
               (after w (parse_log event
                         ++ [LineReply (reply_token event) loading_text])).
Proof.
  intros (first & rest & d & t & Hparts & Hfirst & Hdate & Htime) Hreply.
  unfold handle_message.
  rewrite (bind_ok _ _ _ _ _ (log_run _ _ _)).
  rewrite three_fields_not_greeting.
  2: { rewrite <- (length_map Py.strip), Hparts. reflexivity. }
  rewrite (bind_ok _ _ _ _ _ (log_run _ _ _)).
  rewrite after_after.
  rewrite Hparts.
  change (Nat.eqb (List.length [first; region; city]) 3) with true.
  cbv iota.
  erewrite try_except_bind_ok by (apply getitem_some; reflexivity).
  rewrite Hfirst.
  erewrite try_except_bind_ok by (apply getitem_some; reflexivity).
  erewrite try_except_bind_ok by (apply getitem_some; reflexivity).
  rewrite Hfirst.
  erewrite try_except_bind_ok by (apply getitem_some; reflexivity).
  erewrite try_except_bind_ok by (apply getitem_some; reflexivity).
  erewrite try_except_bind_ok by (apply getitem_some; reflexivity).
  erewrite try_except_bind_ok
    by (unfold strptime_m; rewrite Hdate; reflexivity).
  erewrite try_except_bind_ok
    by (unfold strptime_m; rewrite Htime; reflexivity).
  rewrite (try_except_bind_ok _ _ _ _ _ _ (log_run _ _ _)).
  rewrite after_after.
  erewrite try_except_bind_ok.
  2: { rewrite reply_message_run. cbn [trace after].
       simpl app. unfold parse_log in Hreply. rewrite Hreply.
       reflexivity. }
  rewrite after_after. reflexivity.
Qed.

(** A push followed by a log record, under the [except] clauses: the push
    is made; what follows are messages and log records only; when the push
    goes through, it is the log record alone. *)
Lemma push_then_log_tail event message lv msg W :
  exists r tail,
    try_except (push_message (user_id event) message ;; log lv msg)
               (handle_message_except event) W
    = (r, after W (LinePush (user_id event) message :: tail)) /\
    Forall (fun ef => is_line_or_log ef = true) tail /\
    (line_push (trace W) (user_id event) message = None ->
     r = Ok tt /\ tail = [Log lv msg]).
Proof.
  unfold try_except, bind at 1. rewrite push_message_run.
  destruct (line_push (trace W) (user_id event) message) as [e |].
  - unfold handle_message_except. destruct (is_ValueError e).
    + unfold bind at 1. rewrite reply_message_run.
      destruct (line_reply _ (reply_token event) syntax_error_text);
        [| rewrite log_run]; rewrite ?after_after;
        (eexists; eexists; split; [reflexivity |]);
        (split; [repeat constructor | discriminate]).
    + rewrite (bind_ok _ _ _ _ _ (log_run _ _ _)).
      rewrite push_message_run, ?after_after.
      (eexists; eexists; split; [reflexivity |]);
        (split; [repeat constructor | discriminate]).
  - rewrite log_run, ?after_after.
    (eexists; eexists; split; [reflexivity |]);
      (split; [repeat constructor | auto]).
Qed.

(** X16: a message that is the greeting once stripped and lower-cased gets
    the greeting reply and nothing else: no parsing, no request.  The reply
    is sent outside the [try] block, so its failure is raised to the
    caller. *)
Theorem greeting_reply event w :
  String.eqb (Py.lower (Py.strip (text event))) "こんにちは" = true ->
  let received := Log INFO [Lit "Received message: "; Str (text event)] in
  let reply := LineReply (reply_token event) greeting_text in
  handle_message event w
  = match line_reply (trace w ++ [received]) (reply_token event)
                     greeting_text with
    | None =>
        (Ok tt,
         after w [received; reply; Log INFO [Lit "Sent greeting message."]])
    | Some e => (Raise e, after w [received; reply])
    end.
Proof.
  intros Hgreet received reply. unfold handle_message.
  rewrite (bind_ok _ _ _ _ _ (log_run _ _ _)), Hgreet.
  unfold bind at 1. rewrite reply_message_run. cbn [trace after].
  fold received.
  destruct (line_reply (trace w ++ [received]) (reply_token event)
                       greeting_text).
  - rewrite after_after. reflexivity.
  - rewrite log_run, !after_after. reflexivity.
Qed.

(** X17: an exception leaves [handle_message] only from a call to the LINE
    API that has just failed, and only from the greeting reply or from the
    message sent by an [except] clause: what parsing, geocoding, the chart
    computation or the interpretation raise is caught. *)
Theorem handle_message_raises_only_from_line event w e w' :
  handle_message event w = (Raise e, w') ->
  exists w1,
    (exists message,
        (message = greeting_text \/ message = syntax_error_text) /\
        w' = after w1 [LineReply (reply_token event) message] /\
        line_reply (trace w1) (reply_token event) message = Some e) \/
    (w' = after w1 [LinePush (user_id event) unexpected_error_text] /\
     line_push (trace w1) (user_id event) unexpected_error_text = Some e).
Proof.
  unfold handle_message.
  rewrite (bind_ok _ _ _ _ _ (log_run _ _ _)).
  destruct (String.eqb (Py.lower (Py.strip (text event))) "こんにちは").
  - unfold bind at 1. rewrite reply_message_run.
    destruct (line_reply _ (reply_token event) greeting_text) as [e0 |] eqn:Hr;
      [| rewrite log_run; discriminate].
    intros Heq. inversion Heq; subst.
    eexists. left. exists greeting_text. split; [left; reflexivity |].
    split; [reflexivity | exact Hr].
  - rewrite (bind_ok _ _ _ _ _ (log_run _ _ _)).
    unfold try_except.
    match goal with
    | |- (let (_, _) := ?body ?W in _) = _ -> _ =>
        destruct (body W) as [[[] | e0] W1]
    end; [discriminate |].
    unfold handle_message_except. destruct (is_ValueError e0).
    + unfold bind at 1. rewrite reply_message_run.
      destruct (line_reply _ (reply_token event) syntax_error_text)
        as [e1 |] eqn:Hr; [| rewrite log_run; discriminate].
      intros Heq. inversion Heq; subst.
      eexists. left. exists syntax_error_text.
      split; [right; reflexivity |]. split; [reflexivity | exact Hr].
    + rewrite (bind_ok _ _ _ _ _ (log_run _ _ _)), push_message_run.
      destruct (line_push _ (user_id event) unexpected_error_text)
        as [e1 |] eqn:Hp; [| discriminate].
      intros Heq. inversion Heq; subst.
      eexists. right. split; [reflexivity | exact Hp].
Qed.

(** X20: a message with three fields whose date parses and whose time does
    not gets the wrong date/time reply. *)
Theorem wrong_time_reply event first region city date time rest d msg w :
  map Py.strip (Py.split Py.comma (Py.strip (text event)))
  = [first; region; city] ->
  Py.split Py.space first = date :: time :: rest ->
  strptime date "%Y-%m-%d" = inr d ->
  strptime time "%H:%M" = inl msg ->
  exists tail,
    snd (handle_message event w)
    = after w
        (Log INFO [Lit "Received message: "; Str (text event)]
         :: Log INFO [Lit "Attempting to parse horoscope input: '";
                      Str (Py.strip (text event)); Lit "'"]
         :: LineReply (reply_token event) syntax_error_text :: tail).
Proof.
  intros Hparts Hfirst Hdate Htime. unfold handle_message.
  rewrite (bind_ok _ _ _ _ _ (log_run _ _ _)).
  rewrite three_fields_not_greeting.
  2: { rewrite <- (length_map Py.strip), Hparts. reflexivity. }
  rewrite (bind_ok _ _ _ _ _ (log_run _ _ _)), after_after.
  rewrite Hparts.
  change (Nat.eqb (List.length [first; region; city]) 3) with true.
  cbv iota.
  erewrite try_except_bind_ok by (apply getitem_some; reflexivity).
  rewrite Hfirst.
  erewrite try_except_bind_ok by (apply getitem_some; reflexivity).
  erewrite try_except_bind_ok by (apply getitem_some; reflexivity).
  rewrite Hfirst.
  erewrite try_except_bind_ok by (apply getitem_some; reflexivity).
  erewrite try_except_bind_ok by (apply getitem_some; reflexivity).
  erewrite try_except_bind_ok by (apply getitem_some; reflexivity).
  erewrite try_except_bind_ok
    by (unfold strptime_m; rewrite Hdate; reflexivity).
  erewrite try_except_bind_raise
    by (unfold strptime_m; rewrite Htime; reflexivity).
  unfold handle_message_except. cbv [is_ValueError class_of].
  unfold bind. rewrite reply_message_run.
  destruct (line_reply _ _ _); [| rewrite log_run]; cbn [snd];
    rewrite !after_after; eexists; reflexivity.
Qed.

(** X21: when the coordinates were found and [calculate_natal_chart]
    returns [None], the chart failure text is pushed and the handler stops:
    after the chart computation there are only messages and log records, no
    interpretation is requested. *)
Theorem chart_failure_halts
        event date time region city w lat lon w_geo w_chart :
  well_formed_request event date time region city ->
  line_reply (trace w ++ parse_log event) (reply_token event) loading_text
  = None ->
  get_coordinates city region
    (after w (parse_log event
              ++ [LineReply (reply_token event) loading_text]))
  = (Ok (Some lat, Some lon), w_geo) ->
  calculate_natal_chart date time lat lon w_geo = (Ok None, w_chart) ->
  exists r tail,
    handle_message event w
    = (r, after w_chart (LinePush (user_id event) chart_error_text :: tail)) /\
    Forall (fun ef => is_line_or_log ef = true) tail /\
    (line_push (trace w_chart) (user_id event) chart_error_text = None ->
     r = Ok tt /\ tail = [Log ERROR [Lit "Failed to calculate natal chart."]]).
Proof.
  intros Hwf Hreply Hgeo Hchart.
  rewrite (handle_message_well_formed _ _ _ _ _ _ Hwf Hreply).
  unfold after_loading_reply.
  erewrite try_except_bind_ok by (exact Hgeo). cbv beta iota.
  erewrite try_except_bind_ok by (exact Hchart). cbv beta iota.
  apply push_then_log_tail.
Qed.

(** X22: when the coordinates were found, the chart was computed and the
    interpretation returned a text, that text is pushed to the user after
    the fixed prefix; if the push goes through the handler returns after
    one more log record. *)
Theorem interpretation_is_pushed
        event date time region city w lat lon w_geo c w_chart
        interpretation w_gen :
  well_formed_request event date time region city ->
  line_reply (trace w ++ parse_log event) (reply_token event) loading_text
  = None ->
  get_coordinates city region
    (after w (parse_log event
              ++ [LineReply (reply_token event) loading_text]))
  = (Ok (Some lat, Some lon), w_geo) ->
  calculate_natal_chart date time lat lon w_geo = (Ok (Some c), w_chart) ->
  generate_horoscope_interpretation c w_chart = (Ok interpretation, w_gen) ->
  exists r tail,
    handle_message event w
    = (r, after w_gen
            (LinePush (user_id event) (result_prefix ++ interpretation)%string
             :: tail)) /\
    Forall (fun ef => is_line_or_log ef = true) tail /\
    (line_push (trace w_gen) (user_id event)
               (result_prefix ++ interpretation)%string = None ->
     r = Ok tt /\
     tail = [Log INFO [Lit "Pushed final horoscope reply to user ";
                       Str (user_id event)]]).
Proof.
  intros Hwf Hreply Hgeo Hchart Hgen.
  rewrite (handle_message_well_formed _ _ _ _ _ _ Hwf Hreply).
  unfold after_loading_reply.
  erewrite try_except_bind_ok by (exact Hgeo). cbv beta iota.
  erewrite try_except_bind_ok by (exact Hchart). cbv beta iota.
  erewrite try_except_bind_ok by (exact Hgen).
  apply push_then_log_tail.
Qed.

End HandlerMore.

Lemma greeting_reply_witness :
  @handle_message datetime_lib swiss_eph requests_found line_bot_api gen_ai
                  config greeting w0
  = (Ok tt,
     after w0 [Log INFO [Lit "Received message: "; Str (text greeting)];
               LineReply "T1" greeting_text;
               Log INFO [Lit "Sent greeting message."]]).
Proof.
  apply (@greeting_reply datetime_lib swiss_eph requests_found line_bot_api
           gen_ai config greeting w0).
  reflexivity.
Defined.

Lemma handle_message_raises_only_from_line_witness :
  exists w1,
    snd (@handle_message datetime_lib swiss_eph requests_found
           line_bot_api_down gen_ai config hello w0)
    = after w1 [LinePush "U1" unexpected_error_text].
Proof.
  edestruct (@handle_message_raises_only_from_line
               datetime_lib swiss_eph requests_found line_bot_api_down gen_ai
               config hello w0 (Exn LineBotApiError "Service unavailable"))
    as (w1 & [(message & _ & _ & Habs) | (Hw & _)]).
  - vm_compute. reflexivity.
  - discriminate Habs.
  - exists w1. etransitivity; [| exact Hw]. vm_compute. reflexivity.
Defined.

Lemma wrong_field_count_reply_witness :
  exists tail,
    snd (@handle_message datetime_lib swiss_eph requests_found line_bot_api
           gen_ai config hello w0)
    = after w0
        (Log INFO [Lit "Received message: "; Str "hello"]
         :: Log INFO [Lit "Attempting to parse horoscope input: '";
                      Str "hello"; Lit "'"]
         :: LineReply "T1" shape_error_text :: tail).
Proof.
  apply (@wrong_field_count_reply datetime_lib swiss_eph requests_found
           line_bot_api gen_ai config hello w0).
  - reflexivity.
  - discriminate.
Defined.

Lemma wrong_date_reply_witness :
  exists tail,
    snd (@handle_message datetime_lib swiss_eph requests_found line_bot_api
           gen_ai config wrong_date w0)
    = after w0
        (Log INFO [Lit "Received message: "; Str (text wrong_date)]
         :: Log INFO [Lit "Attempting to parse horoscope input: '";
                      Str (Py.strip (text wrong_date)); Lit "'"]
         :: LineReply "T1" syntax_error_text :: tail).
Proof.
  eapply (@wrong_date_reply datetime_lib swiss_eph requests_found
            line_bot_api gen_ai config wrong_date
            "1990-13-40 12:30" "東京都" "港区" "1990-13-40" "12:30" []);
    reflexivity.
Defined.

Lemma wrong_time_reply_witness :
  exists tail,
    snd (@handle_message datetime_lib swiss_eph requests_found line_bot_api
           gen_ai config wrong_time w0)
    = after w0
        (Log INFO [Lit "Received message: "; Str (text wrong_time)]
         :: Log INFO [Lit "Attempting to parse horoscope input: '";
                      Str (Py.strip (text wrong_time)); Lit "'"]
         :: LineReply "T1" syntax_error_text :: tail).
Proof.
  eapply (@wrong_time_reply datetime_lib swiss_eph requests_found
            line_bot_api gen_ai config wrong_time
            "1990-01-01 25:61" "東京都" "港区" "1990-01-01" "25:61" []);
    reflexivity.
Defined.

Lemma scenario1_well_formed :
  well_formed_request (H := datetime_lib) scenario1
                      "1990-01-01" "12:30" "東京都" "港区".
Proof.
  exists "1990-01-01 12:30", [],
         (Datetime 1990 1 1 0 0 0), (Datetime 1900 1 1 12 30 0).
  repeat split; reflexivity.
Qed.

Lemma chart_failure_halts_witness :
  exists r tail,
    @handle_message datetime_lib swiss_eph_no_mars requests_found
                    line_bot_api gen_ai config scenario1 w0
    = (r, tail) /\
    r = Ok tt /\
    last (trace tail) (Log INFO [])
    = Log ERROR [Lit "Failed to calculate natal chart."].
Proof.
  pose (W0 := after w0 (parse_log scenario1
                        ++ [LineReply (reply_token scenario1) loading_text])).
  pose (w_geo := snd (@get_coordinates requests_found config
                        "港区" "東京都" W0)).
  pose (w_chart := snd (@calculate_natal_chart datetime_lib swiss_eph_no_mars
                          "1990-01-01" "12:30" 35.66 139.75 w_geo)).
  destruct (@chart_failure_halts
              datetime_lib swiss_eph_no_mars requests_found line_bot_api
              gen_ai config scenario1 "1990-01-01" "12:30" "東京都" "港区"
              w0 35.66 139.75 w_geo w_chart)
    as (r & tail & Hrun & _ & Hok).
  - exact scenario1_well_formed.
  - reflexivity.
  - vm_compute. reflexivity.
  - vm_compute. reflexivity.
  - destruct (Hok eq_refl) as [-> ->].
    eexists. eexists. split; [exact Hrun |]. split; reflexivity.
Defined.

Lemma interpretation_is_pushed_witness :
  exists w',
    @handle_message datetime_lib swiss_eph requests_found line_bot_api gen_ai
                    config scenario1 w0
    = (Ok tt, w') /\
    In (LinePush "U1" (result_prefix ++ "interpretation")) (trace w').
Proof.
  pose (W0 := after w0 (parse_log scenario1
                        ++ [LineReply (reply_token scenario1) loading_text])).
  pose (w_geo := snd (@get_coordinates requests_found config
                        "港区" "東京都" W0)).
  pose (run := @calculate_natal_chart datetime_lib swiss_eph
                 "1990-01-01" "12:30" 35.66 139.75 w_geo).
  pose (c := match fst run with Ok (Some c) => c | _ => [] end).
  pose (w_gen := snd (@generate_horoscope_interpretation gen_ai config
                        c (snd run))).
  destruct (@interpretation_is_pushed
              datetime_lib swiss_eph requests_found line_bot_api gen_ai
              config scenario1 "1990-01-01" "12:30" "東京都" "港区"
              w0 35.66 139.75 w_geo c (snd run) "interpretation" w_gen)
    as (r & tail & Hrun & _ & Hok).
  - exact scenario1_well_formed.
  - reflexivity.
  - vm_compute. reflexivity.
  - vm_compute. reflexivity.
  - vm_compute. reflexivity.
  - destruct (Hok eq_refl) as [-> ->].
    eexists. split; [exact Hrun |].
    unfold after. cbn [trace]. apply in_or_app. right. left. reflexivity.
Defined.

(** ** The keys read at import *)

Section ImportedKeys.

Context `{Requests}.

(** X23: the import fails exactly when one of LINE_CHANNEL_SECRET,
    LINE_CHANNEL_ACCESS_TOKEN and GOOGLE_GEOCODING_API_KEY is unset or empty,
    with a [ValueError] that names the first such variable in this order;
    otherwise it binds the three values, whatever the Gemini literal is. *)
Theorem import_keys_result getenv gemini_literal w :
  fst (import_keys getenv gemini_literal w)
  = match find (fun name => falsy (getenv name)) required_variables with
    | Some name => Raise (Exn ValueError (not_set name))
    | None =>
        Ok (Keys (value_of (getenv "LINE_CHANNEL_SECRET"))
                 (value_of (getenv "LINE_CHANNEL_ACCESS_TOKEN"))
                 (value_of (getenv "GOOGLE_GEOCODING_API_KEY"))
                 gemini_literal)
    end.
Proof.
  unfold import_keys, required_variables. cbn [find].
  destruct (falsy (getenv "LINE_CHANNEL_SECRET")); [reflexivity |].
  destruct (falsy (getenv "LINE_CHANNEL_ACCESS_TOKEN")); [reflexivity |].
  destruct (falsy (getenv "GOOGLE_GEOCODING_API_KEY")); [reflexivity |].
  destruct (String.eqb gemini_literal ""); reflexivity.
Qed.

Lemma import_keys_geocoding_key getenv gemini_literal w k :
  fst (import_keys getenv gemini_literal w) = Ok k ->
  google_geocoding_api_key k <> "".
Proof.
  unfold import_keys.
  destruct (falsy (getenv "LINE_CHANNEL_SECRET")); [discriminate |].
  destruct (falsy (getenv "LINE_CHANNEL_ACCESS_TOKEN")); [discriminate |].
  destruct (getenv "GOOGLE_GEOCODING_API_KEY") as [key |] eqn:Hkey;
    simpl; [| discriminate].
  destruct (String.eqb_spec key "") as [| Hne]; [discriminate |].
  destruct (String.eqb gemini_literal ""); intros Heq;
    inversion Heq; subst; exact Hne.
Qed.

(** X24: with the keys of an import that succeeded, [get_coordinates]
    always sends its request: the branch for a missing key is never
    taken. *)
Theorem imported_key_is_used getenv gemini_literal w k city region w1 :
  fst (import_keys getenv gemini_literal w) = Ok k ->
  exists rest,
    snd (@get_coordinates _ (config_of k) city region w1)
    = after w1 (HttpGet (@geocode_url (config_of k) city region) :: rest)
    /\ filter is_lookup rest = [].
Proof.
  intros Himport.
  pose proof (import_keys_geocoding_key _ _ _ _ Himport) as Hkey.
  rewrite (get_coordinates_unfold (H0 := config_of k) city region w1 Hkey).
  destruct (requests_get (trace w1) _) as [data | e].
  - destruct (String.eqb (status data) "OK"
              && negb (Nat.eqb (List.length (results data)) 0));
      [destruct (results data) |];
      eexists; split; reflexivity.
  - destruct (is_RequestException e); [| destruct (is_JSONDecodeError e)];
      eexists; split; reflexivity.
Qed.

End ImportedKeys.

Lemma import_keys_result_witness :
  fst (import_keys environment "literal" w0)
  = Ok (Keys "secret" "token" "geocoding-key" "literal") /\
  fst (import_keys environment_incomplete "literal" w0)
  = Raise (Exn ValueError
             "LINE_CHANNEL_ACCESS_TOKEN environment variable is not set.").
Proof.
  split.
  - rewrite import_keys_result. reflexivity.
  - rewrite import_keys_result. reflexivity.
Defined.

Lemma imported_key_is_used_witness :
  exists rest,
    snd (@get_coordinates requests_not_found
           (config_of (Keys "secret" "token" "geocoding-key" "literal"))
           "Nowhere" "Nowhere" w0)
    = after w0
        (HttpGet (@geocode_url
                    (config_of (Keys "secret" "token" "geocoding-key"
                                     "literal"))
                    "Nowhere" "Nowhere") :: rest)
    /\ filter is_lookup rest = [].
Proof.
  apply (@imported_key_is_used requests_not_found environment "literal" w0).
  reflexivity.
Defined.
